(** * apicache: admission policy, cache store and proxy handler of [app.py]

    A shallow embedding of [app.py] together with the small parts of the
    Python runtime it relies on ([str] methods, [json.loads], [hashlib.sha256],
    [urllib.parse.urlencode], one [sqlite3] table).

    Python [str] values are represented by their UTF-8 encoding as a Rocq
    [string]: every string operation the program performs ([lstrip],
    [startswith] with ASCII prefixes, JSON scanning, [encode()]) acts the same
    way on that encoding. *)

From Stdlib Require Import String Ascii ZArith List Bool Lia.
Import ListNotations.

#[local] Set Warnings "-register-all".

Local Open Scope string_scope.
Local Open Scope Z_scope.

(** ** Python exceptions and results *)

(** The exception classes that can reach the handlers of [app.py]. *)
Inductive exn : Type :=
| JSONDecodeError
| KeyError
| TypeError
| UnicodeDecodeError
| SqliteError
| HTTPError (code : Z)
| URLError
| OtherException (class_name : string).

(** The result of evaluating a Python expression: a value or a raised
    exception. *)
Inductive outcome (A : Type) : Type :=
| Return (a : A)
| Raise (e : exn).

Arguments Return {A} a.
Arguments Raise {A} e.

Definition bind {A B : Type} (m : outcome A) (k : A -> outcome B) : outcome B :=
  match m with
  | Return a => k a
  | Raise e => Raise e
  end.

Notation "x <- m ;; k" := (bind m (fun x => k))
  (at level 61, m at next level, right associativity).

(** [try: m  except classes: h] where [classes] is a predicate on the raised
    exception. *)
Definition try_except {A : Type} (m : outcome A) (catches : exn -> bool)
    (h : outcome A) : outcome A :=
  match m with
  | Return a => Return a
  | Raise e => if catches e then h else Raise e
  end.

(** ** [str] methods *)

Module PyStr.

(** [s.lstrip("/")] *)
Fixpoint lstrip_slash (s : string) : string :=
  match s with
  | String c s' => if Ascii.eqb c "/" then lstrip_slash s' else s
  | EmptyString => EmptyString
  end.

(** [s.startswith(p)] *)
Definition startswith (s p : string) : bool := String.prefix p s.

(** [needle in s] for strings: substring test. *)
Fixpoint contains (needle s : string) : bool :=
  String.prefix needle s ||
  match s with
  | EmptyString => false
  | String _ s' => contains needle s'
  end.

(** Truthiness of a [str]: non-empty. *)
Definition truthy (s : string) : bool :=
  match s with
  | EmptyString => false
  | String _ _ => true
  end.

End PyStr.

(** ** Python values produced by [json.loads] *)

(** A Python [float]: an IEEE 754 binary64 value.  A finite value is kept as
    the exact dyadic number [m * 2^e]. *)
Inductive pyfloat : Type :=
| FNan
| FInf (negative : bool)
| FFinite (m e : Z).

Inductive pyval : Type :=
| PyNone
| PyBool (b : bool)
| PyInt (n : Z)
| PyFloat (f : pyfloat)
| PyStr (s : string)
| PyList (items : list pyval)
| PyDict (pairs : list (string * pyval)).

Module PyVal.

(** Comparison of a float with an int; Python compares the two exactly.
    [None] stands for an unordered pair (NaN). *)
Definition float_compare_int (f : pyfloat) (n : Z) : option comparison :=
  match f with
  | FNan => None
  | FInf true => Some Lt
  | FInf false => Some Gt
  | FFinite m e =>
      if 0 <=? e then Some (Z.compare (m * 2 ^ e) n)
      else Some (Z.compare m (n * 2 ^ (- e)))
  end.

(** The numeric view of a value in a comparison with an int, when it has
    one ([bool] is a subclass of [int]). *)
Definition compare_int (v : pyval) (n : Z) : outcome (option comparison) :=
  match v with
  | PyInt k => Return (Some (Z.compare k n))
  | PyBool b => Return (Some (Z.compare (if b then 1 else 0) n))
  | PyFloat f => Return (float_compare_int f n)
  | PyNone | PyStr _ | PyList _ | PyDict _ => Raise TypeError
  end.

(** [v == n] for an int literal [n]: never raises; values of other types
    are simply unequal. *)
Definition eq_int (v : pyval) (n : Z) : bool :=
  match compare_int v n with
  | Return (Some Eq) => true
  | _ => false
  end.

(** [v >= n] *)
Definition ge_int (v : pyval) (n : Z) : outcome bool :=
  c <- compare_int v n ;;
  Return match c with
         | Some Eq | Some Gt => true
         | _ => false
         end.

(** [v < n] *)
Definition lt_int (v : pyval) (n : Z) : outcome bool :=
  c <- compare_int v n ;;
  Return match c with
         | Some Lt => true
         | _ => false
         end.

Fixpoint dict_get (pairs : list (string * pyval)) (key : string)
    : option pyval :=
  match pairs with
  | [] => None
  | (k, v) :: rest => if String.eqb k key then Some v else dict_get rest key
  end.

(** [d[key] = value] on a dict kept in insertion order. *)
Fixpoint dict_set (pairs : list (string * pyval)) (key : string)
    (value : pyval) : list (string * pyval) :=
  match pairs with
  | [] => [(key, value)]
  | (k, v) :: rest =>
      if String.eqb k key then (k, value) :: rest
      else (k, v) :: dict_set rest key value
  end.

(** [key in v] for a [str] key. *)
Definition contains (key : string) (v : pyval) : outcome bool :=
  match v with
  | PyDict pairs =>
      Return match dict_get pairs key with Some _ => true | None => false end
  | PyList items =>
      Return (existsb (fun x => match x with
                                | PyStr s => String.eqb s key
                                | _ => false
                                end) items)
  | PyStr s => Return (PyStr.contains key s)
  | PyNone | PyBool _ | PyInt _ | PyFloat _ => Raise TypeError
  end.

(** [v[key]] for a [str] key. *)
Definition getitem (v : pyval) (key : string) : outcome pyval :=
  match v with
  | PyDict pairs =>
      match dict_get pairs key with
      | Some x => Return x
      | None => Raise KeyError
      end
  | _ => Raise TypeError
  end.

End PyVal.

(** ** [json.loads]

    The decoder of the standard library with its default settings
    ([strict=True], [NaN], [Infinity] and [-Infinity] accepted), following
    [scan_once], [JSONObject], [JSONArray] and [scanstring] of
    [json.decoder]/[json.scanner]. Every syntax error is a [JSONDecodeError].
    The limits of the interpreter (recursion depth, the digit limit of
    [int()]) are outside the model. *)

Module Json.

Definition dquote : ascii := "034"%char.
Definition backslash : ascii := "092"%char.

Definition code (c : ascii) : Z := Z.of_N (N_of_ascii c).
Definition chr (n : Z) : ascii := ascii_of_N (Z.to_N n).

Definition is_ws (c : ascii) : bool :=
  let n := code c in (n =? 32) || (n =? 9) || (n =? 10) || (n =? 13).

Fixpoint skip_ws (s : string) : string :=
  match s with
  | String c s' => if is_ws c then skip_ws s' else s
  | EmptyString => EmptyString
  end.

Definition is_digit (c : ascii) : bool :=
  let n := code c in (48 <=? n) && (n <=? 57).

(** The longest prefix of digits, and what follows it. *)
Fixpoint span_digits (s : string) : string * string :=
  match s with
  | String c s' =>
      if is_digit c then
        let (ds, rest) := span_digits s' in (String c ds, rest)
      else (EmptyString, s)
  | EmptyString => (EmptyString, EmptyString)
  end.

Fixpoint digits_value (acc : Z) (ds : string) : Z :=
  match ds with
  | String c ds' => digits_value (10 * acc + (code c - 48)) ds'
  | EmptyString => acc
  end.

(** What follows [p] in [s], when [s] starts with [p]. *)
Fixpoint strip_prefix (p s : string) : option string :=
  match p with
  | EmptyString => Some s
  | String a p' =>
      match s with
      | String b s' => if Ascii.eqb a b then strip_prefix p' s' else None
      | EmptyString => None
      end
  end.

(** *** Numbers *)

(** [floor (log2 (a / b))] for positive [a] and [b]. *)
Definition binary_exponent (a b : Z) : Z :=
  let k := Z.log2 a - Z.log2 b in
  let reaches := if 0 <=? k then b * 2 ^ k <=? a else b <=? a * 2 ^ (- k) in
  if reaches then k else k - 1.

(** The binary64 value nearest to [a / b] (ties to even), for positive [a]
    and [b]: what [float()] returns for a decimal literal. *)
Definition round_binary64 (negative : bool) (a b : Z) : pyfloat :=
  let q := Z.max (binary_exponent a b - 52) (-1074) in
  let num := if 0 <=? q then a else a * 2 ^ (- q) in
  let den := if 0 <=? q then b * 2 ^ q else b in
  let n0 := num / den in
  let r := num mod den in
  let n := if 2 * r <? den then n0
           else if den <? 2 * r then n0 + 1
           else if Z.even n0 then n0 else n0 + 1 in
  if (971 <? q) || ((q =? 971) && (2 ^ 53 <=? n)) then FInf negative
  else FFinite (if negative then - n else n) q.

(** [float(text)] for the literal [mantissa * 10^e10] whose mantissa has
    [ndigits] digits. *)
Definition float_of_decimal (negative : bool) (mantissa : Z) (ndigits : Z)
    (e10 : Z) : pyfloat :=
  if mantissa =? 0 then FFinite 0 0
  else if 310 <? e10 + ndigits then FInf negative
  else if e10 + ndigits <? -330 then FFinite 0 0
  else if 0 <=? e10 then round_binary64 negative (mantissa * 10 ^ e10) 1
  else round_binary64 negative mantissa (10 ^ (- e10)).

(** The fraction group [(\.\d+)?]. *)
Definition match_frac (s : string) : option (string * string) :=
  match s with
  | String "." s' =>
      match span_digits s' with
      | (EmptyString, _) => None
      | (ds, rest) => Some (ds, rest)
      end
  | _ => None
  end.

(** The exponent group [([eE][-+]?\d+)?]. *)
Definition match_exp (s : string) : option (Z * string) :=
  match s with
  | String c s' =>
      if (code c =? 101) || (code c =? 69) then
        let (negative, s'') :=
          match s' with
          | String "-" t => (true, t)
          | String "+" t => (false, t)
          | _ => (false, s')
          end in
        match span_digits s'' with
        | (EmptyString, _) => None
        | (ds, rest) =>
            let e := digits_value 0 ds in
            Some (if negative then - e else e, rest)
        end
      else None
  | EmptyString => None
  end.

(** The sign [-?]. *)
Definition match_sign (s : string) : bool * string :=
  match s with
  | String "-" t => (true, t)
  | _ => (false, s)
  end.

(** The integer group: [0], or a digit string without leading zero. *)
Definition match_integer (s : string) : option (string * string) :=
  match s with
  | String "0" t => Some ("0", t)
  | String c _ => if is_digit c then Some (span_digits s) else None
  | EmptyString => None
  end.

(** [NUMBER_RE.match]: an optional minus sign, the integer group, then the
    optional fraction and exponent groups; [parse_int = int] and
    [parse_float = float]. *)
Definition match_number (s : string) : option (pyval * string) :=
  let (negative, s1) := match_sign s in
  match match_integer s1 with
  | None => None
  | Some (ids, s2) =>
      let frac := match_frac s2 in
      let (fds, s3) := match frac with
                       | Some (ds, rest) => (ds, rest)
                       | None => (EmptyString, s2)
                       end in
      let exp := match_exp s3 in
      match frac, exp with
      | None, None =>
          let n := digits_value 0 ids in
          Some (PyInt (if negative then - n else n), s3)
      | _, _ =>
          let (e, s4) := match exp with
                         | Some (e, rest) => (e, rest)
                         | None => (0, s3)
                         end in
          let mantissa := digits_value 0 (ids ++ fds) in
          let ndigits := Z.of_nat (String.length (ids ++ fds)) in
          Some (PyFloat (float_of_decimal negative mantissa ndigits
                           (e - Z.of_nat (String.length fds))), s4)
      end
  end.

(** *** Strings *)

Definition hex_value (c : ascii) : option Z :=
  let n := code c in
  if (48 <=? n) && (n <=? 57) then Some (n - 48)
  else if (97 <=? n) && (n <=? 102) then Some (n - 87)
  else if (65 <=? n) && (n <=? 70) then Some (n - 55)
  else None.

Definition hex4 (a b c d : ascii) : option Z :=
  match hex_value a, hex_value b, hex_value c, hex_value d with
  | Some x, Some y, Some z, Some w => Some (((x * 16 + y) * 16 + z) * 16 + w)
  | _, _, _, _ => None
  end.

(** UTF-8 encoding of a code point (a lone surrogate is encoded like any
    other three-byte code point). *)
Definition utf8_encode (cp : Z) : string :=
  if cp <? 128 then String (chr cp) EmptyString
  else if cp <? 2048 then
    String (chr (192 + cp / 64)) (String (chr (128 + cp mod 64)) EmptyString)
  else if cp <? 65536 then
    String (chr (224 + cp / 4096))
      (String (chr (128 + (cp / 64) mod 64))
         (String (chr (128 + cp mod 64)) EmptyString))
  else
    String (chr (240 + cp / 262144))
      (String (chr (128 + (cp / 4096) mod 64))
         (String (chr (128 + (cp / 64) mod 64))
            (String (chr (128 + cp mod 64)) EmptyString))).

Definition is_high_surrogate (u : Z) : bool := (55296 <=? u) && (u <=? 56319).
Definition is_low_surrogate (u : Z) : bool := (56320 <=? u) && (u <=? 57343).
Definition join_surrogates (hi lo : Z) : Z :=
  65536 + (hi - 55296) * 1024 + (lo - 56320).

(** The single-character escapes of [BACKSLASH]. *)
Definition simple_escape (c : ascii) : option ascii :=
  let n := code c in
  if n =? 34 then Some dquote
  else if n =? 92 then Some backslash
  else if n =? 47 then Some "/"%char
  else if n =? 98 then Some "008"%char
  else if n =? 102 then Some "012"%char
  else if n =? 110 then Some "010"%char
  else if n =? 114 then Some "013"%char
  else if n =? 116 then Some "009"%char
  else None.

Definition flush (pending : option Z) : string :=
  match pending with
  | Some hi => utf8_encode hi
  | None => EmptyString
  end.

Definition emit (prefix : string) (r : option (string * string))
    : option (string * string) :=
  match r with
  | Some (content, rest) => Some (prefix ++ content, rest)
  | None => None
  end.

(** [scanstring]: [s] starts right after the opening quote; the result is
    the decoded content and the text after the closing quote.  [pending] is
    a high surrogate read from a [\uXXXX] escape that is joined with a low
    surrogate escape when one follows immediately. *)
Fixpoint scanstring (pending : option Z) (s : string)
    : option (string * string) :=
  match s with
  | EmptyString => None
  | String c s' =>
      if Ascii.eqb c dquote then Some (flush pending, s')
      else if Ascii.eqb c backslash then
        match s' with
        | EmptyString => None
        | String e s'' =>
            if Ascii.eqb e "u" then
              match s'' with
              | String h1 (String h2 (String h3 (String h4 r))) =>
                  match hex4 h1 h2 h3 h4 with
                  | None => None
                  | Some u =>
                      match pending with
                      | Some hi =>
                          if is_low_surrogate u then
                            emit (utf8_encode (join_surrogates hi u))
                                 (scanstring None r)
                          else if is_high_surrogate u then
                            emit (utf8_encode hi) (scanstring (Some u) r)
                          else
                            emit (utf8_encode hi ++ utf8_encode u)
                                 (scanstring None r)
                      | None =>
                          if is_high_surrogate u then scanstring (Some u) r
                          else emit (utf8_encode u) (scanstring None r)
                      end
                  end
              | _ => None
              end
            else
              match simple_escape e with
              | Some ch =>
                  emit (flush pending ++ String ch EmptyString)
                       (scanstring None s'')
              | None => None
              end
        end
      else if code c <? 32 then None
      else emit (flush pending ++ String c EmptyString) (scanstring None s')
  end.

(** *** Values *)

Inductive presult : Type :=
| POk (v : pyval) (rest : string)
| PErr
| PFuel.

Definition literal (p : string) (v : pyval) (s : string) (otherwise : presult)
    : presult :=
  match strip_prefix p s with
  | Some rest => POk v rest
  | None => otherwise
  end.

(** [scan_once] with the two container loops; [fuel] bounds the number of
    nested calls. *)
Fixpoint scan_once (fuel : nat) (s : string) : presult :=
  match fuel with
  | O => PFuel
  | S fuel' =>
      match s with
      | EmptyString => PErr
      | String c s' =>
          if Ascii.eqb c dquote then
            match scanstring None s' with
            | Some (str, rest) => POk (PyStr str) rest
            | None => PErr
            end
          else if Ascii.eqb c "{" then
            match skip_ws s' with
            | String c1 r =>
                if Ascii.eqb c1 "}" then POk (PyDict []) r
                else if Ascii.eqb c1 dquote then object_items fuel' r []
                else PErr
            | EmptyString => PErr
            end
          else if Ascii.eqb c "[" then
            match skip_ws s' with
            | String c1 r =>
                if Ascii.eqb c1 "]" then POk (PyList []) r
                else array_items fuel' (String c1 r) []
            | EmptyString => array_items fuel' EmptyString []
            end
          else
            literal "null" PyNone s
            (literal "true" (PyBool true) s
            (literal "false" (PyBool false) s
            match match_number s with
            | Some (v, rest) => POk v rest
            | None =>
                literal "NaN" (PyFloat FNan) s
                (literal "Infinity" (PyFloat (FInf false)) s
                (literal "-Infinity" (PyFloat (FInf true)) s PErr))
            end))
      end
  end

(** The [while True] loop of [JSONArray]; [values] holds the items read so
    far, last first. *)
with array_items (fuel : nat) (s : string) (values : list pyval) : presult :=
  match fuel with
  | O => PFuel
  | S fuel' =>
      match scan_once fuel' s with
      | POk value rest =>
          match skip_ws rest with
          | String c r =>
              if Ascii.eqb c "]" then POk (PyList (rev (value :: values))) r
              else if Ascii.eqb c "," then
                array_items fuel' (skip_ws r) (value :: values)
              else PErr
          | EmptyString => PErr
          end
      | PErr => PErr
      | PFuel => PFuel
      end
  end

(** The [while True] loop of [JSONObject]; [s] starts right after the
    opening quote of a key. *)
with object_items (fuel : nat) (s : string) (pairs : list (string * pyval))
    : presult :=
  match fuel with
  | O => PFuel
  | S fuel' =>
      match scanstring None s with
      | None => PErr
      | Some (key, rest) =>
          match skip_ws rest with
          | String ":" r =>
              match scan_once fuel' (skip_ws r) with
              | POk value rest2 =>
                  let pairs' := PyVal.dict_set pairs key value in
                  match skip_ws rest2 with
                  | String c r2 =>
                      if Ascii.eqb c "}" then POk (PyDict pairs') r2
                      else if Ascii.eqb c "," then
                        match skip_ws r2 with
                        | String q r3 =>
                            if Ascii.eqb q dquote
                            then object_items fuel' r3 pairs'
                            else PErr
                        | EmptyString => PErr
                        end
                      else PErr
                  | EmptyString => PErr
                  end
              | PErr => PErr
              | PFuel => PFuel
              end
          | _ => PErr
          end
      end
  end.

Definition fuel_for (s : string) : nat := 2 * String.length s + 2.

(** [json.loads(s)]: one value, surrounded by optional whitespace. *)
Definition loads (s : string) : outcome pyval :=
  match scan_once (fuel_for s) (skip_ws s) with
  | POk v rest =>
      match skip_ws rest with
      | EmptyString => Return v
      | String _ _ => Raise JSONDecodeError
      end
  | PErr | PFuel => Raise JSONDecodeError
  end.

(** The result is not a fuel exhaustion, and a value leaves a strictly
    shorter text than [s]. *)
Definition consumes (res : presult) (s : string) : Prop :=
  res <> PFuel /\
  forall v r, res = POk v r -> (String.length r < String.length s)%nat.

End Json.

(** ** [hashlib.sha256]

    SHA-256 (FIPS 180-4) on 32-bit words kept as [Z] with the wrap-around
    written out. *)

Module Sha256.

Definition wrap (x : Z) : Z := x mod 2 ^ 32.
Definition add32 (x y : Z) : Z := wrap (x + y).
Definition rotr (n x : Z) : Z :=
  Z.lor (Z.shiftr x n) (wrap (Z.shiftl x (32 - n))).
Definition shr (n x : Z) : Z := Z.shiftr x n.
Definition not32 (x : Z) : Z := Z.lxor x 0xffffffff.

Definition Ch (x y z : Z) : Z := Z.lxor (Z.land x y) (Z.land (not32 x) z).
Definition Maj (x y z : Z) : Z :=
  Z.lxor (Z.lxor (Z.land x y) (Z.land x z)) (Z.land y z).
Definition Sigma0 (x : Z) : Z := Z.lxor (Z.lxor (rotr 2 x) (rotr 13 x)) (rotr 22 x).
Definition Sigma1 (x : Z) : Z := Z.lxor (Z.lxor (rotr 6 x) (rotr 11 x)) (rotr 25 x).
Definition sigma0 (x : Z) : Z := Z.lxor (Z.lxor (rotr 7 x) (rotr 18 x)) (shr 3 x).
Definition sigma1 (x : Z) : Z := Z.lxor (Z.lxor (rotr 17 x) (rotr 19 x)) (shr 10 x).

(** The first sixty-four prime numbers. *)
Definition primes : list Z :=
  [2; 3; 5; 7; 11; 13; 17; 19; 23; 29; 31; 37; 41; 43; 47; 53;
   59; 61; 67; 71; 73; 79; 83; 89; 97; 101; 103; 107; 109; 113; 127; 131;
   137; 139; 149; 151; 157; 163; 167; 173; 179; 181; 191; 193; 197; 199;
   211; 223; 227; 229; 233; 239; 241; 251; 257; 263; 269; 271; 277; 281;
   283; 293; 307; 311].

(** Bisection for the integer cube root: [lo^3 <= x < hi^3] throughout. *)
Fixpoint cube_root_between (steps : nat) (lo hi x : Z) : Z :=
  match steps with
  | O => lo
  | S steps' =>
      let mid := (lo + hi) / 2 in
      if mid * mid * mid <=? x then cube_root_between steps' mid hi x
      else cube_root_between steps' lo mid x
  end.

Definition cube_root (x : Z) : Z := cube_root_between 40 0 (2 ^ 36) x.

(** The round constants: the first 32 bits of the fractional parts of the
    cube roots of the primes. *)
Definition K : list Z :=
  Eval vm_compute in map (fun p => wrap (cube_root (p * 2 ^ 96))) primes.

Record state : Type := State {
  h0 : Z; h1 : Z; h2 : Z; h3 : Z; h4 : Z; h5 : Z; h6 : Z; h7 : Z
}.

(** The first 32 bits of the fractional part of the square root of [p]. *)
Definition sqrt_frac (p : Z) : Z := wrap (Z.sqrt (p * 2 ^ 64)).

(** The initial hash value, from the first eight primes. *)
Definition initial : state :=
  Eval vm_compute in
    State (sqrt_frac 2) (sqrt_frac 3) (sqrt_frac 5) (sqrt_frac 7)
          (sqrt_frac 11) (sqrt_frac 13) (sqrt_frac 17) (sqrt_frac 19).

(** Big-endian bytes of [x], [n] of them. *)
Fixpoint be_bytes (n : nat) (x : Z) : list Z :=
  match n with
  | O => []
  | S n' => (x / 256 ^ Z.of_nat n') mod 256 :: be_bytes n' x
  end.

(** The message followed by the bit 1, zeros and its length in bits, a
    multiple of 64 bytes in all. *)
Definition pad (msg : list Z) : list Z :=
  let len := Z.of_nat (length msg) in
  msg ++ [128] ++ repeat 0 (Z.to_nat ((55 - len) mod 64)) ++ be_bytes 8 (8 * len).

Fixpoint words (bytes : list Z) : list Z :=
  match bytes with
  | a :: b :: c :: d :: rest =>
      (((a * 256 + b) * 256 + c) * 256 + d) :: words rest
  | _ => []
  end.

(** The message schedule, latest word first: [n] more words after [w]. *)
Fixpoint extend (n : nat) (w : list Z) : list Z :=
  match n with
  | O => w
  | S n' =>
      let next :=
        add32 (add32 (sigma1 (nth 1 w 0)) (nth 6 w 0))
              (add32 (sigma0 (nth 14 w 0)) (nth 15 w 0)) in
      extend n' (next :: w)
  end.

Definition schedule (block : list Z) : list Z :=
  rev (extend 48 (rev (words block))).

Definition round (st : state) (kw : Z * Z) : state :=
  let (k, w) := kw in
  let t1 := add32 (add32 (add32 (h7 st) (Sigma1 (h4 st)))
                         (add32 (Ch (h4 st) (h5 st) (h6 st)) k)) w in
  let t2 := add32 (Sigma0 (h0 st)) (Maj (h0 st) (h1 st) (h2 st)) in
  State (add32 t1 t2) (h0 st) (h1 st) (h2 st)
        (add32 (h3 st) t1) (h4 st) (h5 st) (h6 st).

Definition compress (st : state) (block : list Z) : state :=
  let r := fold_left round (combine K (schedule block)) st in
  State (add32 (h0 st) (h0 r)) (add32 (h1 st) (h1 r))
        (add32 (h2 st) (h2 r)) (add32 (h3 st) (h3 r))
        (add32 (h4 st) (h4 r)) (add32 (h5 st) (h5 r))
        (add32 (h6 st) (h6 r)) (add32 (h7 st) (h7 r)).

Fixpoint blocks (n : nat) (bytes : list Z) (st : state) : state :=
  match n with
  | O => st
  | S n' => blocks n' (skipn 64 bytes) (compress st (firstn 64 bytes))
  end.

Definition digest (msg : list Z) : state :=
  let padded := pad msg in
  blocks (length padded / 64) padded initial.

Definition hex_digit (n : Z) : ascii :=
  if n <? 10 then ascii_of_N (Z.to_N (48 + n))
  else ascii_of_N (Z.to_N (87 + n)).

(** The eight lower-case hexadecimal digits of a word. *)
Definition hex_word (x : Z) (tail : string) : string :=
  String (hex_digit ((x / 0x10000000) mod 16))
 (String (hex_digit ((x / 0x1000000) mod 16))
 (String (hex_digit ((x / 0x100000) mod 16))
 (String (hex_digit ((x / 0x10000) mod 16))
 (String (hex_digit ((x / 0x1000) mod 16))
 (String (hex_digit ((x / 0x100) mod 16))
 (String (hex_digit ((x / 0x10) mod 16))
 (String (hex_digit (x mod 16)) tail))))))).

Fixpoint bytes_of_string (s : string) : list Z :=
  match s with
  | String c s' => Z.of_N (N_of_ascii c) :: bytes_of_string s'
  | EmptyString => []
  end.

(** [hashlib.sha256(s.encode()).hexdigest()] *)
Definition hexdigest (s : string) : string :=
  let st := digest (bytes_of_string s) in
  hex_word (h0 st) (hex_word (h1 st) (hex_word (h2 st) (hex_word (h3 st)
 (hex_word (h4 st) (hex_word (h5 st) (hex_word (h6 st) (hex_word (h7 st)
    EmptyString))))))).

End Sha256.

(** ** [urllib.parse.urlencode] and the decoding of HTTP bodies *)

Module Urllib.

(** The characters [quote] never escapes: letters, digits and [_.-~]. *)
Definition always_safe (c : ascii) : bool :=
  let n := Json.code c in
  ((65 <=? n) && (n <=? 90)) || ((97 <=? n) && (n <=? 122)) ||
  ((48 <=? n) && (n <=? 57)) ||
  (n =? 95) || (n =? 46) || (n =? 45) || (n =? 126).

Definition upper_hex (n : Z) : ascii :=
  if n <? 10 then Json.chr (48 + n) else Json.chr (55 + n).

(** [quote_plus(s, safe='')] *)
Fixpoint quote_plus (s : string) : string :=
  match s with
  | EmptyString => EmptyString
  | String c s' =>
      if Ascii.eqb c " " then String "+" (quote_plus s')
      else if always_safe c then String c (quote_plus s')
      else String "%" (String (upper_hex (Json.code c / 16))
                      (String (upper_hex (Json.code c mod 16)) (quote_plus s')))
  end.

(** ['&'.join(l)] *)
Fixpoint join_amp (l : list string) : string :=
  match l with
  | [] => EmptyString
  | [x] => x
  | x :: rest => x ++ "&" ++ join_amp rest
  end.

(** [urlencode(query)] for a dict of [str] keys and values. *)
Definition urlencode (query : list (string * string)) : string :=
  join_amp (map (fun kv => quote_plus (fst kv) ++ "=" ++ quote_plus (snd kv))
                query).

Definition continuation (c : ascii) : bool :=
  let n := Json.code c in (128 <=? n) && (n <=? 191).

Definition in_range (lo hi : Z) (c : ascii) : bool :=
  let n := Json.code c in (lo <=? n) && (n <=? hi).

(** Is the byte string well-formed UTF-8 (no overlong forms, no surrogates,
    nothing above U+10FFFF)? *)
Fixpoint utf8_valid (s : string) : bool :=
  match s with
  | EmptyString => true
  | String a s1 =>
      if in_range 0 127 a then utf8_valid s1
      else
        match s1 with
        | EmptyString => false
        | String b s2 =>
            if in_range 194 223 a then continuation b && utf8_valid s2
            else
              match s2 with
              | EmptyString => false
              | String c s3 =>
                  if in_range 224 239 a then
                    (if Json.code a =? 224 then in_range 160 191 b
                     else if Json.code a =? 237 then in_range 128 159 b
                     else continuation b)
                    && continuation c && utf8_valid s3
                  else
                    match s3 with
                    | EmptyString => false
                    | String d s4 =>
                        in_range 240 244 a
                        && (if Json.code a =? 240 then in_range 144 191 b
                            else if Json.code a =? 244 then in_range 128 143 b
                            else continuation b)
                        && continuation c && continuation d && utf8_valid s4
                    end
              end
        end
  end.

(** [raw.decode("utf-8")] *)
Definition decode_utf8 (raw : string) : outcome string :=
  if utf8_valid raw then Return raw else Raise UnicodeDecodeError.

End Urllib.

(** ** The request as the web framework hands it to the view

    The view function sees the request only through its [path] argument and
    [request.args]. The framework side is an external collaborator; what is
    fixed here is the WSGI convention that [QUERY_STRING] is the text after the
    first [?] of the request target (empty when there is none), the routing
    rule [/<path:path>], and the parsing of [QUERY_STRING] into a dict that
    keeps the first value of each name. *)

Module Wsgi.

(** [PATH_INFO] and [QUERY_STRING] of a request target. *)
Fixpoint split_target (target : string) : string * string :=
  match target with
  | EmptyString => (EmptyString, EmptyString)
  | String c rest =>
      if Ascii.eqb c "?" then (EmptyString, rest)
      else let (p, q) := split_target rest in (String c p, q)
  end.

(** The rule [/<path:path>] binds [path] to [PATH_INFO] without its leading
    slash. *)
Definition route (path_info : string) : string :=
  match path_info with
  | String "/" path => path
  | _ => path_info
  end.

(** [s.split(sep)] *)
Fixpoint split (sep : ascii) (s : string) : list string :=
  match s with
  | EmptyString => [EmptyString]
  | String c rest =>
      if Ascii.eqb c sep then EmptyString :: split sep rest
      else match split sep rest with
           | x :: xs => String c x :: xs
           | [] => [String c EmptyString]
           end
  end.

(** [s.partition('=')]: the name and, after the first [=], the value. *)
Fixpoint partition_eq (s : string) : string * string :=
  match s with
  | EmptyString => (EmptyString, EmptyString)
  | String c rest =>
      if Ascii.eqb c "=" then (EmptyString, rest)
      else let (n, v) := partition_eq rest in (String c n, v)
  end.

(** [unquote_plus]: [+] is a space and [%XX] is the byte [XX]. *)
Fixpoint unquote_plus (s : string) : string :=
  match s with
  | EmptyString => EmptyString
  | String c rest =>
      if Ascii.eqb c "+" then String " " (unquote_plus rest)
      else if Ascii.eqb c "%" then
        match rest with
        | String a (String b rest') =>
            match Json.hex_value a, Json.hex_value b with
            | Some x, Some y => String (Json.chr (16 * x + y)) (unquote_plus rest')
            | _, _ => String c (unquote_plus rest)
            end
        | _ => String c (unquote_plus rest)
        end
      else String c (unquote_plus rest)
  end.

(** [parse_qsl(query_string, keep_blank_values=True)] *)
Definition parse_qsl (query_string : string) : list (string * string) :=
  flat_map (fun name_value =>
              match name_value with
              | EmptyString => []
              | _ => let (n, v) := partition_eq name_value in
                     [(unquote_plus n, unquote_plus v)]
              end)
           (split "&" query_string).

(** [MultiDict.to_dict()]: the first value of each name. *)
Fixpoint to_dict (seen : list string) (items : list (string * string))
    : list (string * string) :=
  match items with
  | [] => []
  | (k, v) :: rest =>
      if existsb (String.eqb k) seen then to_dict seen rest
      else (k, v) :: to_dict (k :: seen) rest
  end.

(** [request.args.to_dict()] *)
Definition request_args (query_string : string) : list (string * string) :=
  to_dict [] (parse_qsl query_string).

End Wsgi.

(** ** The [cache] table of the SQLite database

    [CREATE TABLE cache (requestHash TEXT PRIMARY KEY, data TEXT NOT NULL,
    created_at TIMESTAMP DEFAULT CURRENT_TIMESTAMP)]. *)

Module Sqlite.

Record row : Type := Row {
  requestHash : string;
  data : string;
  created_at : Z
}.

(** The database file as the program sees it: the rows of the table, the
    clock behind [CURRENT_TIMESTAMP], and whether statements of each kind
    currently fail with a [sqlite3.Error] (unreadable or read-only file,
    missing table, lock timeout). *)
Record database : Type := Database {
  rows : list row;
  current_timestamp : Z;
  select_fails : bool;
  insert_fails : bool
}.

(** [SELECT data FROM cache WHERE requestHash = ?] then [fetchone()] *)
Fixpoint fetchone (table : list row) (key : string) : option row :=
  match table with
  | [] => None
  | r :: rest =>
      if String.eqb (requestHash r) key then Some r else fetchone rest key
  end.

(** [INSERT OR REPLACE INTO cache (requestHash, data) VALUES (?, ?)]: the
    rows that conflict on the primary key are deleted, then the new row is
    inserted. *)
Definition insert_or_replace (table : list row) (key value : string)
    (now : Z) : list row :=
  filter (fun r => negb (String.eqb (requestHash r) key)) table
    ++ [Row key value now].

(** How many rows carry the key. *)
Definition count (table : list row) (key : string) : nat :=
  length (filter (fun r => String.eqb (requestHash r) key) table).

End Sqlite.

Import Sqlite.

(** ** Configuration of [app.py] *)

Definition ALLOWED_DOMAINS : list string :=
  [ "openexchangerates.org";
    "api.twelvedata.com" ].

Definition CACHEABLE_PATHS : list string :=
  [ "openexchangerates.org/api/historical";
    "api.twelvedata.com/eod" ].

(** ** Stage A: request gate *)

Definition is_allowed_domain (path : string) : bool :=
  let path_clean := PyStr.lstrip_slash path in
  existsb (fun domain => PyStr.startswith path_clean domain) ALLOWED_DOMAINS.

Definition is_cacheable_path (path : string) : bool :=
  let path_clean := PyStr.lstrip_slash path in
  existsb (fun pattern => PyStr.startswith path_clean pattern) CACHEABLE_PATHS.

(** ** Cache store *)

(** The database right after [init_db()] created the table in a new file. *)
Definition init_db (now : Z) : database := Database [] now false false.

Definition get_cached_data (db : database) (request_hash : string)
    : outcome (option string) :=
  if select_fails db then Raise SqliteError
  else
    let result := fetchone (rows db) request_hash in
    Return match result with
           | Some r => Some (data r)
           | None => None
           end.

Definition cache_data (db : database) (request_hash data : string)
    : outcome database :=
  if insert_fails db then Raise SqliteError
  else
    Return (Database
              (insert_or_replace (rows db) request_hash data
                 (current_timestamp db))
              (current_timestamp db) (select_fails db) (insert_fails db)).

(** ** Stage B: response gate *)

Definition should_cache_response (path : string) (status_code : Z)
    (data : string) : outcome bool :=
  if negb (is_cacheable_path path) then Return false
  else if negb (status_code =? 200) then Return false
  else
    let path_clean := PyStr.lstrip_slash path in
    if PyStr.startswith path_clean "openexchangerates.org" then Return true
    else if PyStr.startswith path_clean "api.twelvedata.com" then
      try_except
        (json_data <- Json.loads data ;;
         has_code <- PyVal.contains "code" json_data ;;
         if has_code then
           code <- PyVal.getitem json_data "code" ;;
           is_error <-
             (if PyVal.eq_int code 429 then Return true
              else
                ge <- PyVal.ge_int code 500 ;;
                if ge then PyVal.lt_int code 600 else Return false) ;;
           if is_error then Return false else Return true
         else Return true)
        (fun e => match e with
                  | JSONDecodeError | KeyError => true
                  | _ => false
                  end)
        (Return true)
    else Return false.

(** ** Proxy handler *)

(** The message of a [jsonify({"error": ...})] body. *)
Inductive error_message : Type :=
| Literal (text : string)
| StrOf (e : exn).

Inductive payload : Type :=
| Verbatim (text : string)
| JsonifyError (error : error_message).

Record response : Type := Response {
  body : payload;
  status : Z;
  headers : list (string * string)
}.

(** The calls the handler makes to its collaborators, in order. *)
Inductive event : Type :=
| CacheRead (request_hash : string)
| UpstreamCall (url : string)
| CacheWrite (request_hash data : string).

Definition cache_headers (marker : string) : list (string * string) :=
  [("Content-Type", "application/json"); ("X-Cache", marker)].

(** [f"/{path}?{query_string}" if query_string else f"/{path}"] *)
Definition full_path (path : string) (query_params : list (string * string))
    : string :=
  let query_string := Urllib.urlencode query_params in
  if PyStr.truthy query_string then "/" ++ path ++ "?" ++ query_string
  else "/" ++ path.

(** The cache key of a request:
    [hashlib.sha256(full_path.encode()).hexdigest()]. *)
Definition fingerprint (path : string) (query_params : list (string * string))
    : string :=
  Sha256.hexdigest (full_path path query_params).

(** The block "Try to get from cache" of [proxy]: the body served from the
    cache, if any.  An exception of the store is logged and the request goes
    on as if nothing had been found. *)
Definition cache_lookup (db : database) (request_hash : option string)
    : option string :=
  match request_hash with
  | Some h =>
      match get_cached_data db h with
      | Return (Some cached_data) =>
          if PyStr.truthy cached_data then Some cached_data else None
      | Return None => None
      | Raise _ => None
      end
  | None => None
  end.

(** The [try] block "Make upstream request" of [proxy] up to the admission
    decision: status, decoded body and [should_cache]. *)
Definition fetch (path upstream_url : string)
    (urlopen : string -> outcome (Z * string)) : outcome (Z * string * bool) :=
  upstream <- urlopen upstream_url ;;
  let (status_code, raw) := upstream in
  data <- Urllib.decode_utf8 raw ;;
  should_cache <- should_cache_response path status_code data ;;
  Return (status_code, data, should_cache).

(** What [proxy] returns after the upstream request: the upstream response
    marked [MISS], or the error reply of the [except] clause that applies. *)
Definition upstream_reply (fetched : outcome (Z * string * bool)) : response :=
  match fetched with
  | Return (status_code, data, _) =>
      Response (Verbatim data) status_code (cache_headers "MISS")
  | Raise (HTTPError code) =>
      Response (JsonifyError (StrOf (HTTPError code))) code []
  | Raise e => Response (JsonifyError (StrOf e)) 500 []
  end.

(** The view function.  [urlopen] is the HTTP client: for a URL it returns the
    status and raw body of the response, or raises.  The result is the
    response, the database afterwards and the collaborator calls made. *)
Definition proxy (path : string) (query_params : list (string * string))
    (urlopen : string -> outcome (Z * string)) (db : database)
    : response * database * list event :=
  if negb (is_allowed_domain path) then
    (Response (JsonifyError (Literal "Domain not allowed")) 403 [], db, [])
  else
    let upstream_url := "https:/" ++ full_path path query_params in
    let request_hash :=
      if is_cacheable_path path then Some (fingerprint path query_params)
      else None in
    let reads :=
      match request_hash with
      | Some h => [CacheRead h]
      | None => []
      end in
    match cache_lookup db request_hash with
    | Some cached_data =>
        (Response (Verbatim cached_data) 200 (cache_headers "HIT"), db, reads)
    | None =>
        let fetched := fetch path upstream_url urlopen in
        let stored :=
          match fetched, request_hash with
          | Return (_, data, should_cache), Some h =>
              if should_cache && PyStr.truthy h then Some (h, data) else None
          | _, _ => None
          end in
        match stored with
        | Some (h, data) =>
            (upstream_reply fetched,
             match cache_data db h data with
             | Return db' => db'
             | Raise _ => db
             end,
             (reads ++ [UpstreamCall upstream_url; CacheWrite h data])%list)
        | None =>
            (upstream_reply fetched, db,
             (reads ++ [UpstreamCall upstream_url])%list)
        end
    end.

Definition reply_of (run : response * database * list event) : response :=
  fst (fst run).
Definition database_of (run : response * database * list event) : database :=
  snd (fst run).
Definition trace_of (run : response * database * list event) : list event :=
  snd run.

(** The cache key the handler works with, if the path is cacheable. *)
Definition key_of (path : string) (query_params : list (string * string))
    : option string :=
  if is_cacheable_path path then Some (fingerprint path query_params) else None.

Definition reads_of (request_hash : option string) : list event :=
  match request_hash with
  | Some h => [CacheRead h]
  | None => []
  end.

Definition upstream_url_of (path : string)
    (query_params : list (string * string)) : string :=
  "https:/" ++ full_path path query_params.

(** The handler applied to a request target, through the framework. *)
Definition serve (target : string) (urlopen : string -> outcome (Z * string))
    (db : database) : response * database * list event :=
  let (path_info, query_string) := Wsgi.split_target target in
  proxy (Wsgi.route path_info) (Wsgi.request_args query_string) urlopen db.



(** A sequence of [cache_data] calls; a failed write leaves the database as
    it was. *)
Fixpoint cache_all (db : database) (writes : list (string * string))
    : database :=
  match writes with
  | [] => db
  | (k, v) :: rest =>
      match cache_data db k v with
      | Return db' => cache_all db' rest
      | Raise _ => cache_all db rest
      end
  end.

(** The states of the database file: created by [init_db], written by
    [cache_data], while the clock and the availability of the file change
    freely. *)
Inductive reachable : database -> Prop :=
| reachable_init (now : Z) : reachable (init_db now)
| reachable_write (db db' : database) (k v : string) :
    reachable db -> cache_data db k v = Return db' -> reachable db'
| reachable_env (db : database) (now : Z) (sf wf : bool) :
    reachable db -> reachable (Database (rows db) now sf wf).

(** A JSON text in double quotes. *)
Definition quoted (s : string) : string :=
  String Json.dquote (s ++ String Json.dquote EmptyString).

(** The value of the last write to [key] in a sequence of writes, if any. *)
Fixpoint last_write (writes : list (string * string)) (key : string)
    : option string :=
  match writes with
  | [] => None
  | (k, v) :: rest =>
      match last_write rest key with
      | Some later => Some later
      | None => if String.eqb k key then Some v else None
      end
  end.

(** Does every character of [s] satisfy [p]? *)
Fixpoint all_chars (p : ascii -> bool) (s : string) : bool :=
  match s with
  | EmptyString => true
  | String c s' => p c && all_chars p s'
  end.

(** The characters of an encoded query string: the ones [quote] never
    escapes, and [+], [%], [=] and [&]. *)
Definition query_char (c : ascii) : bool :=
  Urllib.always_safe c || Ascii.eqb c "+" || Ascii.eqb c "%"
  || Ascii.eqb c "=" || Ascii.eqb c "&".

(** Not [&]. *)
Definition not_amp (c : ascii) : bool := negb (Ascii.eqb c "&").

(** Neither [&] nor [=]. *)
Definition not_separator (c : ascii) : bool :=
  not_amp c && negb (Ascii.eqb c "=").

(** * Properties *)

(** ** Strings *)

Lemma prefix_app (a b s : string) :
  String.prefix (a ++ b) s = true -> String.prefix a s = true.
Proof.
  revert s; induction a as [|c a IH]; intros s H.
  - destruct s; reflexivity.
  - destruct s as [|d s]; simpl in *; [discriminate|].
    destruct (Ascii.ascii_dec c d); [auto|discriminate].
Qed.

Lemma cacheable_is_allowed (path : string) :
  is_cacheable_path path = true -> is_allowed_domain path = true.
Proof.
  unfold is_cacheable_path, is_allowed_domain, CACHEABLE_PATHS, ALLOWED_DOMAINS,
    PyStr.startswith.
  cbn [existsb]. rewrite !orb_false_r.
  intros H. apply orb_true_iff in H. apply orb_true_iff.
  destruct H as [H|H]; [left|right].
  - apply (prefix_app _ "/api/historical"). exact H.
  - apply (prefix_app _ "/eod"). exact H.
Qed.

Example hexdigest_abc :
  Sha256.hexdigest "abc" =
    "ba7816bf8f01cfea414140de5dae2223b00361a396177a9cb410ff61f20015ad".
Proof. vm_compute. reflexivity. Qed.


Lemma hexdigest_truthy (s : string) : PyStr.truthy (Sha256.hexdigest s) = true.
Proof. unfold Sha256.hexdigest, Sha256.hex_word. reflexivity. Qed.

(** ** The JSON decoder never runs out of fuel *)

Module JsonFuel.
Import Json.

Lemma skip_ws_length (s : string) :
  (String.length (skip_ws s) <= String.length s)%nat.
Proof.
  induction s as [|c s IH]; cbn; [lia|]. destruct (is_ws c); cbn; lia.
Qed.

Lemma strip_prefix_length (p s rest : string) :
  strip_prefix p s = Some rest ->
  String.length s = (String.length p + String.length rest)%nat.
Proof.
  revert s. induction p as [|a p IH]; intros s H; cbn in H.
  - injection H as ->. reflexivity.
  - destruct s as [|b s]; [discriminate|].
    destruct (Ascii.eqb a b); [|discriminate].
    cbn. rewrite (IH _ H). reflexivity.
Qed.

Lemma span_digits_length (s ds rest : string) :
  span_digits s = (ds, rest) ->
  String.length s = (String.length ds + String.length rest)%nat.
Proof.
  revert ds rest. induction s as [|c s IH]; intros ds rest H; cbn in H.
  - injection H as <- <-. reflexivity.
  - destruct (is_digit c).
    + destruct (span_digits s) as [ds' rest'] eqn:E.
      injection H as <- <-. cbn. rewrite (IH _ _ eq_refl). reflexivity.
    + injection H as <- <-. reflexivity.
Qed.

Lemma match_frac_length (s ds rest : string) :
  match_frac s = Some (ds, rest) ->
  (String.length rest < String.length s)%nat.
Proof.
  unfold match_frac. destruct s as [|c s]; [discriminate|].
  destruct c as [[] [] [] [] [] [] [] []]; try discriminate.
  destruct (span_digits s) as [ds' rest'] eqn:E.
  apply span_digits_length in E.
  destruct ds'; [discriminate|]. intros H. injection H as <- <-. cbn in *. lia.
Qed.

Lemma match_exp_length (s : string) (e : Z) (rest : string) :
  match_exp s = Some (e, rest) ->
  (String.length rest < String.length s)%nat.
Proof.
  unfold match_exp. destruct s as [|c s]; [discriminate|].
  destruct (_ || _); [|discriminate].
  intros H.
  destruct s as [|d s']; cbn in H; [discriminate|].
  destruct d as [[] [] [] [] [] [] [] []];
    match type of H with
    | context [span_digits ?t] =>
        destruct (span_digits t) as [ds rest0] eqn:E;
        apply span_digits_length in E; destruct ds; [discriminate|];
        injection H as _ <-; cbn in *; lia
    end.
Qed.

Lemma match_sign_length (s : string) :
  (String.length (snd (match_sign s)) <= String.length s)%nat.
Proof.
  destruct s as [|c s]; [cbn; lia|].
  destruct c as [[] [] [] [] [] [] [] []]; cbn; lia.
Qed.

Lemma match_integer_length (s ids rest : string) :
  match_integer s = Some (ids, rest) ->
  (String.length rest < String.length s)%nat.
Proof.
  destruct s as [|c s]; [discriminate|].
  assert (Hd : (if is_digit c then Some (span_digits (String c s)) else None)
               = Some (ids, rest) ->
               (String.length rest < String.length (String c s))%nat).
  { destruct (is_digit c) eqn:Ec; [|discriminate]. intros H.
    injection H as H. cbn in H. rewrite Ec in H.
    destruct (span_digits s) as [ds r] eqn:E. apply span_digits_length in E.
    injection H as <- <-. cbn. lia. }
  destruct c as [[] [] [] [] [] [] [] []]; try exact Hd.
  intros H. injection H as <- <-. cbn. lia.
Qed.

Lemma match_number_length (s : string) (v : pyval) (rest : string) :
  match_number s = Some (v, rest) ->
  (String.length rest < String.length s)%nat.
Proof.
  unfold match_number. pose proof (match_sign_length s) as Hs.
  destruct (match_sign s) as [negative s1]. cbn [snd] in Hs.
  destruct (match_integer s1) as [[ids s2]|] eqn:Ei; [|discriminate].
  apply match_integer_length in Ei.
  destruct (match_frac s2) as [[fds s3]|] eqn:Ef;
    [apply match_frac_length in Ef|];
    match goal with
    | |- context [match_exp ?t] =>
        destruct (match_exp t) as [[e s4]|] eqn:Ee;
        [apply match_exp_length in Ee|]
    end;
    intros H; injection H as _ <-; lia.
Qed.

Lemma emit_rest (prefix : string) (r : option (string * string))
    (content rest : string) :
  emit prefix r = Some (content, rest) ->
  exists content', r = Some (content', rest).
Proof.
  destruct r as [[c0 r0]|]; cbn; [|discriminate].
  intros H. injection H as _ <-. eexists. reflexivity.
Qed.

Lemma scanstring_length_bounded (n : nat) :
  forall (s : string) (pending : option Z) (content rest : string),
    (String.length s <= n)%nat ->
    scanstring pending s = Some (content, rest) ->
    (String.length rest < String.length s)%nat.
Proof.
  induction n as [|n IH]; intros s pending content rest Hn H.
  - destruct s; [discriminate|cbn in Hn; lia].
  - destruct s as [|c s']; [discriminate|]. cbn [scanstring] in H.
    cbn [String.length] in *.
    assert (Hemit : forall pending' prefix t,
               (String.length t <= String.length s')%nat ->
               emit prefix (scanstring pending' t) = Some (content, rest) ->
               (String.length rest < S (String.length s'))%nat).
    { intros pending' prefix t Ht E.
      apply emit_rest in E. destruct E as [content' E]. apply IH in E; lia. }
    assert (Hscan : forall pending' t,
               (String.length t <= String.length s')%nat ->
               scanstring pending' t = Some (content, rest) ->
               (String.length rest < S (String.length s'))%nat).
    { intros pending' t Ht E. apply IH in E; lia. }
    destruct (Ascii.eqb c dquote).
    { injection H as _ <-. lia. }
    destruct (Ascii.eqb c backslash).
    + destruct s' as [|e s'']; [discriminate|]. cbn [String.length] in *.
      destruct (Ascii.eqb e "u").
      * destruct s'' as [|h1 [|h2 [|h3 [|h4 r]]]]; try discriminate.
        cbn [String.length] in *.
        destruct (hex4 h1 h2 h3 h4) as [u|]; [|discriminate].
        destruct pending as [hi|];
          repeat match type of H with
                 | context [if ?b then _ else _] => destruct b
                 end;
          first [eapply Hemit; [|exact H] | eapply Hscan; [|exact H]]; lia.
      * destruct (simple_escape e); [|discriminate].
        eapply Hemit; [|exact H]; lia.
    + destruct (code c <? 32); [discriminate|].
      eapply Hemit; [|exact H]; lia.
Qed.

Lemma scanstring_length (s : string) (pending : option Z)
    (content rest : string) :
  scanstring pending s = Some (content, rest) ->
  (String.length rest < String.length s)%nat.
Proof. apply (scanstring_length_bounded (String.length s)). lia. Qed.

Lemma consumes_err (s : string) : consumes PErr s.
Proof. split; [discriminate|]. intros v r H. discriminate H. Qed.

Lemma consumes_ok (v : pyval) (r s : string) :
  (String.length r < String.length s)%nat -> consumes (POk v r) s.
Proof.
  intros H. split; [discriminate|]. intros v' r' E. injection E as _ <-. exact H.
Qed.

Lemma consumes_weaken (res : presult) (s t : string) :
  consumes res s -> (String.length s <= String.length t)%nat ->
  consumes res t.
Proof.
  intros [Hf Hr] Hl. split; [exact Hf|]. intros v r E.
  specialize (Hr v r E). lia.
Qed.

Lemma consumes_literal (p : string) (v : pyval) (s : string)
    (otherwise : presult) :
  p <> EmptyString -> consumes otherwise s ->
  consumes (literal p v s otherwise) s.
Proof.
  intros Hp Ho. unfold literal.
  destruct (strip_prefix p s) as [rest|] eqn:E; [|exact Ho].
  apply strip_prefix_length in E. apply consumes_ok.
  destruct p; [contradiction|]. cbn in E. lia.
Qed.

Lemma scan_fuel (fuel : nat) :
  (forall s, (2 * String.length s < fuel)%nat ->
             consumes (scan_once fuel s) s) /\
  (forall s values, (2 * String.length s + 1 < fuel)%nat ->
                    consumes (array_items fuel s values) s) /\
  (forall s pairs, (2 * String.length s + 1 < fuel)%nat ->
                   consumes (object_items fuel s pairs) s).
Proof.
  induction fuel as [|fuel [IHs [IHa IHo]]].
  - repeat split; intros; lia.
  - split; [|split].
    + intros s H. cbn [scan_once].
      destruct s as [|c s']; [apply consumes_err|].
      cbn [String.length] in H.
      pose proof (skip_ws_length s') as Hws.
      destruct (Ascii.eqb c dquote).
      { destruct (scanstring None s') as [[str rest]|] eqn:E;
          [|apply consumes_err].
        apply scanstring_length in E. apply consumes_ok. cbn. lia. }
      destruct (Ascii.eqb c "{").
      { destruct (skip_ws s') as [|c1 r]; [apply consumes_err|].
        cbn [String.length] in Hws.
        destruct (Ascii.eqb c1 "}"); [apply consumes_ok; cbn; lia|].
        destruct (Ascii.eqb c1 dquote); [|apply consumes_err].
        apply (consumes_weaken _ r); [apply IHo; lia|cbn; lia]. }
      destruct (Ascii.eqb c "[").
      { destruct (skip_ws s') as [|c1 r].
        - apply (consumes_weaken _ EmptyString); [apply IHa; cbn; lia|cbn; lia].
        - cbn [String.length] in Hws.
          destruct (Ascii.eqb c1 "]"); [apply consumes_ok; cbn; lia|].
          apply (consumes_weaken _ (String c1 r));
            [apply IHa; cbn; lia|cbn; lia]. }
      repeat (apply consumes_literal; [discriminate|]).
      destruct (match_number (String c s')) as [[v rest]|] eqn:E.
      * apply match_number_length in E. apply consumes_ok. exact E.
      * repeat (apply consumes_literal; [discriminate|]). apply consumes_err.
    + intros s values H. cbn [array_items].
      destruct (IHs s ltac:(lia)) as [Hf Hr].
      destruct (scan_once fuel s) as [value rest| |];
        [|apply consumes_err|contradiction].
      specialize (Hr _ _ eq_refl).
      pose proof (skip_ws_length rest) as Hws.
      destruct (skip_ws rest) as [|c r]; [apply consumes_err|].
      cbn [String.length] in Hws.
      destruct (Ascii.eqb c "]"); [apply consumes_ok; lia|].
      destruct (Ascii.eqb c ","); [|apply consumes_err].
      pose proof (skip_ws_length r) as Hws2.
      apply (consumes_weaken _ (skip_ws r)); [apply IHa; lia|lia].
    + intros s pairs H. cbn [object_items].
      destruct (scanstring None s) as [[key rest]|] eqn:E;
        [|apply consumes_err].
      apply scanstring_length in E.
      pose proof (skip_ws_length rest) as Hws.
      destruct (skip_ws rest) as [|c r]; [apply consumes_err|].
      cbn [String.length] in Hws.
      assert (Hbody :
        consumes
          match scan_once fuel (skip_ws r) with
          | POk value rest2 =>
              match skip_ws rest2 with
              | String c0 r2 =>
                  if Ascii.eqb c0 "}"
                  then POk (PyDict (PyVal.dict_set pairs key value)) r2
                  else if Ascii.eqb c0 ","
                  then match skip_ws r2 with
                       | String q r3 =>
                           if Ascii.eqb q dquote
                           then object_items fuel r3
                                  (PyVal.dict_set pairs key value)
                           else PErr
                       | EmptyString => PErr
                       end
                  else PErr
              | EmptyString => PErr
              end
          | PErr => PErr
          | PFuel => PFuel
          end s).
      { pose proof (skip_ws_length r) as Hws1.
        destruct (IHs (skip_ws r) ltac:(lia)) as [Hf Hr].
        destruct (scan_once fuel (skip_ws r)) as [value rest2| |];
          [|apply consumes_err|contradiction].
        specialize (Hr _ _ eq_refl).
        pose proof (skip_ws_length rest2) as Hws2.
        destruct (skip_ws rest2) as [|c0 r2]; [apply consumes_err|].
        cbn [String.length] in Hws2.
        destruct (Ascii.eqb c0 "}"); [apply consumes_ok; lia|].
        destruct (Ascii.eqb c0 ","); [|apply consumes_err].
        pose proof (skip_ws_length r2) as Hws3.
        destruct (skip_ws r2) as [|q r3]; [apply consumes_err|].
        cbn [String.length] in Hws3.
        destruct (Ascii.eqb q dquote); [|apply consumes_err].
        apply (consumes_weaken _ r3); [apply IHo; lia|lia]. }
      destruct c as [[] [] [] [] [] [] [] []];
        first [exact Hbody | apply consumes_err].
Qed.

(** [json.loads] gives its verdict with the fuel it starts from. *)
Lemma loads_has_fuel (s : string) :
  scan_once (fuel_for s) (skip_ws s) <> PFuel.
Proof.
  pose proof (skip_ws_length s) as Hws.
  apply (proj1 (scan_fuel (fuel_for s))). unfold fuel_for. lia.
Qed.

End JsonFuel.

(** ** Admission policy *)

Example is_allowed_domain_tests :
  is_allowed_domain "/openexchangerates.org/api/test" = true /\
  is_allowed_domain "/api.twelvedata.com/eod" = true /\
  is_allowed_domain "/evil.com/api" = false /\
  is_allowed_domain "/random.org/data" = false.
Proof. repeat split; reflexivity. Qed.

Example is_cacheable_path_tests :
  is_cacheable_path "/openexchangerates.org/api/historical/2024-01-01.json"
    = true /\
  is_cacheable_path "/api.twelvedata.com/eod" = true /\
  is_cacheable_path "/openexchangerates.org/api/latest" = false /\
  is_cacheable_path "/api.twelvedata.com/other" = false.
Proof. repeat split; reflexivity. Qed.


Lemma loads_raises_decode_error (data : string) (e : exn) :
  Json.loads data = Raise e -> e = JSONDecodeError.
Proof.
  unfold Json.loads.
  destruct (Json.scan_once _ _) as [v rest| |]; try congruence.
  destruct (Json.skip_ws rest); congruence.
Qed.

Lemma twelvedata_not_openexchangerates (s : string) :
  PyStr.startswith s "api.twelvedata.com" = true ->
  PyStr.startswith s "openexchangerates.org" = false.
Proof.
  unfold PyStr.startswith. destruct s as [|c s]; [discriminate|].
  cbn [String.prefix].
  destruct (Ascii.ascii_dec "a" c) as [<-|]; intros H; [reflexivity|discriminate H].
Qed.

(** The body inspection of the twelvedata branch, for a path that reaches
    it. *)
Lemma twelvedata_branch (path data : string) :
  is_cacheable_path path = true ->
  PyStr.startswith (PyStr.lstrip_slash path) "api.twelvedata.com" = true ->
  should_cache_response path 200 data =
    match Json.loads data with
    | Raise _ => Return true
    | Return json_data =>
        match PyVal.contains "code" json_data with
        | Raise e => Raise e
        | Return false => Return true
        | Return true =>
            match PyVal.getitem json_data "code" with
            | Raise KeyError => Return true
            | Raise e => Raise e
            | Return code =>
                if PyVal.eq_int code 429 then Return false
                else
                  match PyVal.ge_int code 500 with
                  | Raise e => Raise e
                  | Return false => Return true
                  | Return true =>
                      match PyVal.lt_int code 600 with
                      | Raise e => Raise e
                      | Return b => Return (negb b)
                      end
                  end
            end
        end
    end.
Proof.
  intros Hc Ht. unfold should_cache_response.
  rewrite Hc, Ht, (twelvedata_not_openexchangerates _ Ht). cbn [negb Z.eqb Pos.eqb].
  destruct (Json.loads data) as [json_data|e] eqn:Hl.
  - cbn [bind try_except].
    destruct json_data; cbn [PyVal.contains bind try_except]; try reflexivity.
    + destruct (PyStr.contains "code" s); reflexivity.
    + destruct (existsb _ items); reflexivity.
    + cbn [PyVal.getitem].
      destruct (PyVal.dict_get pairs "code") as [code|]; cbn [bind]; [|reflexivity].
      unfold PyVal.eq_int, PyVal.ge_int, PyVal.lt_int.
      destruct code as [ |b|n|f| | | ]; cbn [PyVal.compare_int bind try_except];
        try reflexivity.
      * destruct (_ ?= 429); cbn [bind try_except]; try reflexivity;
          destruct (_ ?= 500); cbn [bind try_except]; try reflexivity;
          destruct (_ ?= 600); reflexivity.
      * destruct (n ?= 429); cbn [bind try_except]; try reflexivity;
          destruct (n ?= 500); cbn [bind try_except]; try reflexivity;
          destruct (n ?= 600); reflexivity.
      * destruct (PyVal.float_compare_int f 429) as [[| |]|];
          cbn [bind try_except]; try reflexivity;
          destruct (PyVal.float_compare_int f 500) as [[| |]|];
          cbn [bind try_except]; try reflexivity;
          destruct (PyVal.float_compare_int f 600) as [[| |]|]; reflexivity.
  - apply loads_raises_decode_error in Hl. subst e. reflexivity.
Qed.


(** X6. On a twelvedata path with status 200, a JSON object without a
    ["code"] member is admitted; one whose ["code"] is an integer is rejected
    exactly for 429 and for 500 to 599. *)
Lemma twelvedata_object_body (path data : string)
    (pairs : list (string * pyval)) :
  is_cacheable_path path = true ->
  PyStr.startswith (PyStr.lstrip_slash path) "api.twelvedata.com" = true ->
  Json.loads data = Return (PyDict pairs) ->
  (PyVal.dict_get pairs "code" = None ->
   should_cache_response path 200 data = Return true) /\
  (forall c : Z,
     PyVal.dict_get pairs "code" = Some (PyInt c) ->
     should_cache_response path 200 data =
       Return (negb ((c =? 429) || ((500 <=? c) && (c <? 600))))).
Proof.
  intros Hc Ht Hl. rewrite (twelvedata_branch _ _ Hc Ht), Hl.
  cbn [PyVal.contains PyVal.getitem]. split.
  - intros ->. reflexivity.
  - intros c ->. unfold PyVal.eq_int, PyVal.ge_int, PyVal.lt_int.
    cbn [PyVal.compare_int bind].
    destruct (Z.compare_spec c 429), (Z.compare_spec c 500),
      (Z.compare_spec c 600), (Z.eqb_spec c 429), (Z.leb_spec 500 c),
      (Z.ltb_spec c 600); try reflexivity; lia.
Qed.


(** The policy table of the twelvedata upstream on the bodies of the test
    suite. *)
Example twelvedata_policy_table :
  let path := "/api.twelvedata.com/eod" in
  should_cache_response path 200
    ("{" ++ quoted "close" ++ ": " ++ quoted "150.00" ++ "}") = Return true /\
  should_cache_response path 200
    ("{" ++ quoted "code" ++ ": 429, " ++ quoted "message" ++ ": "
         ++ quoted "rate limit" ++ "}") = Return false /\
  should_cache_response path 200
    ("{" ++ quoted "code" ++ ": 500, " ++ quoted "message" ++ ": "
         ++ quoted "server error" ++ "}") = Return false /\
  should_cache_response path 200
    ("{" ++ quoted "code" ++ ": 200, " ++ quoted "close" ++ ": "
         ++ quoted "150.00" ++ "}") = Return true /\
  should_cache_response path 200 "not-json" = Return true.
Proof. repeat split; vm_compute; reflexivity. Qed.

(** C1. Stage B does raise on some bodies: on a twelvedata path with status
    200, the body [5] is valid JSON that decodes to an [int]; the membership
    test ["code" in json_data] raises [TypeError], which the
    [except (json.JSONDecodeError, KeyError)] clause does not catch. *)
Theorem should_cache_response_raises_on_scalar_body :
  is_cacheable_path "/api.twelvedata.com/eod" = true /\
  Json.loads "5" = Return (PyInt 5) /\
  should_cache_response "/api.twelvedata.com/eod" 200 "5" = Raise TypeError.
Proof. repeat split; vm_compute; reflexivity. Qed.

(** C2. On a twelvedata path with status 200, a body that parses as an
    object whose ["code"] member is a string is not admitted or rejected:
    [code >= 500] raises [TypeError], which escapes [should_cache_response]. *)
Theorem should_cache_response_raises_on_string_code :
  let data := "{" ++ quoted "code" ++ ": " ++ quoted "x" ++ "}" in
  Json.loads data = Return (PyDict [("code", PyStr "x")]) /\
  should_cache_response "/api.twelvedata.com/eod" 200 data = Raise TypeError.
Proof. split; vm_compute; reflexivity. Qed.

(** The handler turns the escaped [TypeError] into a 500 reply although the
    upstream answered 200. *)
Example proxy_replies_500_on_scalar_body :
  reply_of (proxy "api.twelvedata.com/eod" [] (fun _ => Return (200, "5"))
              (init_db 0))
  = Response (JsonifyError (StrOf TypeError)) 500 [].
Proof. vm_compute. reflexivity. Qed.

(** C3. For a cacheable path of the openexchangerates upstream,
    [should_cache_response] returns true for status 200 whatever the body,
    and false for every other status. *)
Theorem historical_policy (path : string) (data : string) :
  is_cacheable_path path = true ->
  PyStr.startswith (PyStr.lstrip_slash path) "openexchangerates.org" = true ->
  should_cache_response path 200 data = Return true /\
  (forall status_code : Z,
     status_code <> 200 ->
     should_cache_response path status_code data = Return false).
Proof.
  intros Hc Ho. unfold should_cache_response. rewrite Hc, Ho. split.
  - reflexivity.
  - intros status_code Hs. cbn [negb].
    destruct (Z.eqb_spec status_code 200); [contradiction|reflexivity].
Qed.

Lemma historical_policy_witness :
  should_cache_response "/openexchangerates.org/api/historical/2024-01-01.json"
    200 "anything" = Return true /\
  should_cache_response "/openexchangerates.org/api/historical/2024-01-01.json"
    404 "anything" = Return false.
Proof.
  destruct (historical_policy
              "/openexchangerates.org/api/historical/2024-01-01.json" "anything"
              eq_refl eq_refl) as [H200 Hother].
  split; [exact H200 | apply Hother; discriminate].
Defined.

(** ** Cache store *)

Lemma fetchone_insert_or_replace (table : list row) (k v : string) (now : Z) :
  fetchone (insert_or_replace table k v now) k = Some (Row k v now).
Proof.
  unfold insert_or_replace. induction table as [|r table IH]; cbn.
  - rewrite String.eqb_refl. reflexivity.
  - destruct (String.eqb (requestHash r) k) eqn:E; cbn; [exact IH|].
    rewrite E. exact IH.
Qed.

Lemma fetchone_insert_or_replace_other (table : list row) (k k' v : string)
    (now : Z) :
  k' <> k ->
  fetchone (insert_or_replace table k v now) k' = fetchone table k'.
Proof.
  intros Hne. unfold insert_or_replace. induction table as [|r table IH]; cbn.
  - destruct (String.eqb_spec k k'); [congruence|reflexivity].
  - destruct (String.eqb_spec (requestHash r) k) as [E|E]; cbn.
    + destruct (String.eqb_spec (requestHash r) k'); [congruence|exact IH].
    + destruct (String.eqb (requestHash r) k'); [reflexivity|exact IH].
Qed.

Lemma count_insert_or_replace (table : list row) (k k' v : string) (now : Z) :
  count (insert_or_replace table k v now) k' =
    if String.eqb k k' then 1%nat else count table k'.
Proof.
  unfold count, insert_or_replace. rewrite filter_app, length_app.
  cbn [filter requestHash].
  destruct (String.eqb_spec k k') as [<-|Hne]; cbn [length].
  - induction table as [|r table IH]; [reflexivity|]. cbn [filter].
    destruct (String.eqb_spec (requestHash r) k) as [E|E]; cbn [negb filter];
      [exact IH|].
    destruct (String.eqb_spec (requestHash r) k); [contradiction|exact IH].
  - rewrite Nat.add_0_r. induction table as [|r table IH]; [reflexivity|].
    cbn [filter].
    destruct (String.eqb_spec (requestHash r) k) as [E|E]; cbn [negb filter].
    + destruct (String.eqb_spec (requestHash r) k'); [congruence|exact IH].
    + destruct (String.eqb (requestHash r) k'); cbn [length]; [f_equal|];
        exact IH.
Qed.

Lemma get_cached_data_after_cache_all (db : database)
    (writes : list (string * string)) (k : string) :
  Forall (fun kv => fst kv <> k) writes ->
  get_cached_data (cache_all db writes) k = get_cached_data db k.
Proof.
  intros H. revert db. induction H as [|[k' v] writes Hne _ IH]; intros db.
  - reflexivity.
  - cbn [cache_all]. unfold cache_data.
    destruct (insert_fails db) eqn:Ew; [apply IH|].
    rewrite IH. unfold get_cached_data. cbn [select_fails rows].
    destruct (select_fails db); [reflexivity|].
    rewrite fetchone_insert_or_replace_other by (cbn in Hne; congruence).
    reflexivity.
Qed.

(** C7. On a working store, [cache_data k v] followed by [get_cached_data k]
    returns exactly [v], whatever the text [v]; and for a key that no write
    since [init_db] has used, [get_cached_data] returns [None]. *)
Theorem store_round_trip (db : database) (k v : string) (now : Z)
    (writes : list (string * string)) :
  select_fails db = false ->
  insert_fails db = false ->
  Forall (fun kv => fst kv <> k) writes ->
  (exists db', cache_data db k v = Return db' /\
               get_cached_data db' k = Return (Some v)) /\
  get_cached_data (cache_all (init_db now) writes) k = Return None.
Proof.
  intros Hr Hw Hfresh. split.
  - unfold cache_data. rewrite Hw. eexists. split; [reflexivity|].
    unfold get_cached_data. cbn [select_fails rows]. rewrite Hr.
    rewrite fetchone_insert_or_replace. reflexivity.
  - rewrite get_cached_data_after_cache_all by exact Hfresh. reflexivity.
Qed.

Lemma store_round_trip_witness :
  (exists db', cache_data (init_db 0) "test_hash_123" "" = Return db' /\
               get_cached_data db' "test_hash_123" = Return (Some "")) /\
  get_cached_data (cache_all (init_db 0) [("other", "x")]) "test_hash_123"
    = Return None.
Proof.
  apply (store_round_trip (init_db 0) "test_hash_123" "" 0 [("other", "x")]).
  - reflexivity.
  - reflexivity.
  - repeat constructor. cbn. discriminate.
Defined.

Lemma reachable_unique (db : database) :
  reachable db -> forall k, (count (rows db) k <= 1)%nat.
Proof.
  induction 1 as [now|db db' k v _ IH Hw|db now sf wf _ IH]; intros k'.
  - cbn. lia.
  - unfold cache_data in Hw. destruct (insert_fails db); [discriminate|].
    injection Hw as <-. cbn [rows]. rewrite count_insert_or_replace.
    destruct (String.eqb k k'); [lia|apply IH].
  - cbn [rows]. apply IH.
Qed.

(** C8. Two successive writes to one key leave exactly one row for it, and
    the lookup returns the second payload; in every state the database can
    reach, no key has more than one row. *)
Theorem overwrite_keeps_one_entry (db : database) (k v1 v2 : string) :
  select_fails db = false ->
  insert_fails db = false ->
  (exists db1 db2,
     cache_data db k v1 = Return db1 /\
     cache_data db1 k v2 = Return db2 /\
     count (rows db2) k = 1%nat /\
     get_cached_data db2 k = Return (Some v2)) /\
  (forall s : database, reachable s ->
     forall k' : string, (count (rows s) k' <= 1)%nat).
Proof.
  intros Hr Hw. split.
  - destruct db as [table now sf wf]. cbn in Hr, Hw. subst sf wf.
    unfold cache_data. cbn [insert_fails rows current_timestamp select_fails].
    do 2 eexists. split; [reflexivity|]. split; [reflexivity|]. split.
    + cbn [rows]. rewrite count_insert_or_replace, String.eqb_refl. reflexivity.
    + unfold get_cached_data. cbn [select_fails rows].
      rewrite fetchone_insert_or_replace. reflexivity.
  - intros s Hs. apply reachable_unique. exact Hs.
Qed.

Lemma overwrite_keeps_one_entry_witness :
  exists db1 db2,
    cache_data (init_db 0) "test_hash_123" "first" = Return db1 /\
    cache_data db1 "test_hash_123" "second" = Return db2 /\
    count (rows db2) "test_hash_123" = 1%nat /\
    get_cached_data db2 "test_hash_123" = Return (Some "second").
Proof.
  apply (overwrite_keeps_one_entry (init_db 0) "test_hash_123" "first" "second");
    reflexivity.
Defined.

(** ** Proxy handler *)

Section Runs.

Variables (path : string) (query_params : list (string * string)).
Variable urlopen : string -> outcome (Z * string).
Variable db : database.

Lemma proxy_forbidden :
  is_allowed_domain path = false ->
  proxy path query_params urlopen db =
    (Response (JsonifyError (Literal "Domain not allowed")) 403 [], db, []).
Proof. intros H. unfold proxy. rewrite H. reflexivity. Qed.

Lemma proxy_hit (cached_data : string) :
  is_allowed_domain path = true ->
  cache_lookup db (key_of path query_params) = Some cached_data ->
  proxy path query_params urlopen db =
    (Response (Verbatim cached_data) 200 (cache_headers "HIT"), db,
     reads_of (key_of path query_params)).
Proof.
  intros Ha Hl. unfold proxy. rewrite Ha. cbn [negb].
  fold (key_of path query_params). rewrite Hl. reflexivity.
Qed.

Lemma proxy_miss :
  is_allowed_domain path = true ->
  cache_lookup db (key_of path query_params) = None ->
  reply_of (proxy path query_params urlopen db) =
    upstream_reply
      (fetch path (upstream_url_of path query_params) urlopen) /\
  exists writes,
    trace_of (proxy path query_params urlopen db) =
      (reads_of (key_of path query_params)
         ++ UpstreamCall (upstream_url_of path query_params) :: writes)%list.
Proof.
  intros Ha Hl. unfold proxy. rewrite Ha. cbn [negb].
  fold (key_of path query_params) (upstream_url_of path query_params).
  rewrite Hl.
  destruct (fetch path (upstream_url_of path query_params) urlopen)
    as [[[status_code data] should_cache]|e];
    destruct (key_of path query_params) as [h|];
    try destruct (should_cache && PyStr.truthy h);
    (split; [reflexivity|eexists; reflexivity]).
Qed.

End Runs.

Lemma existsb_false_of_Forall {A : Type} (f : A -> bool) (l : list A) :
  Forall (fun x => f x = false) l -> existsb f l = false.
Proof.
  induction 1 as [|x l Hx _ IH]; [reflexivity|]. cbn. rewrite Hx, IH. reflexivity.
Qed.

(** C5. A path that starts, after its leading slashes, with none of the
    allow-listed domains is not allowed, and the handler answers it with
    status 403 and the JSON error body, leaving the database as it is, with
    no call to the upstream client and no cache read or write. *)
Theorem forbidden_domain_rejected (path : string)
    (query_params : list (string * string))
    (urlopen : string -> outcome (Z * string)) (db : database) :
  Forall (fun domain =>
            PyStr.startswith (PyStr.lstrip_slash path) domain = false)
         ALLOWED_DOMAINS ->
  is_allowed_domain path = false /\
  proxy path query_params urlopen db =
    (Response (JsonifyError (Literal "Domain not allowed")) 403 [], db, []).
Proof.
  intros H.
  assert (Ha : is_allowed_domain path = false)
    by (unfold is_allowed_domain; apply existsb_false_of_Forall; exact H).
  split; [exact Ha|]. apply proxy_forbidden. exact Ha.
Qed.

Lemma forbidden_domain_rejected_witness :
  is_allowed_domain "evil.com/api/data" = false /\
  proxy "evil.com/api/data" [] (fun _ => Return (200, "{}")) (init_db 0) =
    (Response (JsonifyError (Literal "Domain not allowed")) 403 [],
     init_db 0, []).
Proof.
  apply (forbidden_domain_rejected "evil.com/api/data" []
           (fun _ => Return (200, "{}")) (init_db 0)).
  repeat constructor.
Defined.

Lemma key_of_cacheable (path : string) (query_params : list (string * string)) :
  is_cacheable_path path = true ->
  key_of path query_params = Some (fingerprint path query_params).
Proof. intros H. unfold key_of. rewrite H. reflexivity. Qed.

(** C6 as stated fails: with an entry whose body is the empty string stored
    under the fingerprint of a cacheable request, the handler does not answer
    from the cache; it calls the upstream and marks the reply [MISS]. *)
Lemma stored_empty_body_is_not_served :
  let path := "openexchangerates.org/api/historical/2024-01-01.json" in
  let db := Database [Row (fingerprint path []) "" 0] 0 false false in
  let run := proxy path [] (fun _ => Return (200, "{}")) db in
  is_cacheable_path path = true /\
  get_cached_data db (fingerprint path []) = Return (Some "") /\
  reply_of run = Response (Verbatim "{}") 200 (cache_headers "MISS") /\
  In (UpstreamCall
        "https://openexchangerates.org/api/historical/2024-01-01.json")
     (trace_of run).
Proof.
  cbv zeta. split; [reflexivity|]. split; [vm_compute; reflexivity|].
  split; [vm_compute; reflexivity|]. vm_compute. right. left. reflexivity.
Qed.

(** C6, amended. When the store holds a non-empty body under the fingerprint
    of a cacheable request, the handler returns that body verbatim with
    status 200 and [X-Cache: HIT], leaves the database as it is, and its only
    collaborator call is the cache read: the upstream is not invoked. *)
Theorem cache_hit_serves_stored_body (path : string)
    (query_params : list (string * string))
    (urlopen : string -> outcome (Z * string)) (db : database)
    (stored : string) :
  is_cacheable_path path = true ->
  get_cached_data db (fingerprint path query_params) = Return (Some stored) ->
  stored <> "" ->
  proxy path query_params urlopen db =
    (Response (Verbatim stored) 200
       [("Content-Type", "application/json"); ("X-Cache", "HIT")],
     db, [CacheRead (fingerprint path query_params)]).
Proof.
  intros Hc Hg Hne.
  rewrite (proxy_hit path query_params urlopen db stored).
  - rewrite (key_of_cacheable _ _ Hc). reflexivity.
  - apply cacheable_is_allowed. exact Hc.
  - rewrite (key_of_cacheable _ _ Hc). unfold cache_lookup. rewrite Hg.
    destruct stored; [contradiction|reflexivity].
Qed.

Lemma cache_hit_serves_stored_body_witness :
  let path := "openexchangerates.org/api/historical/2024-01-01.json" in
  let query_params := [("app_id", "test"); ("base", "USD")] in
  let stored := "{" ++ quoted "rates" ++ ": {" ++ quoted "AUD" ++ ": 1.5}}" in
  let db := Database [Row (fingerprint path query_params) stored 0] 0 false false in
  proxy path query_params (fun _ => Raise URLError) db =
    (Response (Verbatim stored) 200
       [("Content-Type", "application/json"); ("X-Cache", "HIT")],
     db, [CacheRead (fingerprint path query_params)]).
Proof.
  cbv zeta.
  apply (cache_hit_serves_stored_body
           "openexchangerates.org/api/historical/2024-01-01.json"
           [("app_id", "test"); ("base", "USD")]).
  - reflexivity.
  - vm_compute. reflexivity.
  - vm_compute. discriminate.
Defined.

Lemma upstream_reply_not_hit (fetched : outcome (Z * string * bool)) :
  headers (upstream_reply fetched) <> cache_headers "HIT".
Proof.
  destruct fetched as [[[status_code data] should_cache]|e]; [|destruct e];
    cbn; discriminate.
Qed.



(** C9. Failures of the cache layer do not change the reply of a cacheable
    request.  If the cache read raises, the handler calls the upstream and
    replies as it does when the store has no entry for the key.  If the cache
    write raises after the upstream response was admitted, the handler still
    replies with the upstream status and body and [X-Cache: MISS], and the
    database is left as it was. *)
Theorem cache_failures_do_not_change_reply (path : string)
    (query_params : list (string * string))
    (urlopen : string -> outcome (Z * string)) (db : database) :
  is_cacheable_path path = true ->
  (select_fails db = true ->
   In (UpstreamCall (upstream_url_of path query_params))
      (trace_of (proxy path query_params urlopen db)) /\
   forall db_miss : database,
     get_cached_data db_miss (fingerprint path query_params) = Return None ->
     reply_of (proxy path query_params urlopen db) =
     reply_of (proxy path query_params urlopen db_miss)) /\
  (insert_fails db = true ->
   forall (status_code : Z) (raw data : string),
     cache_lookup db (Some (fingerprint path query_params)) = None ->
     urlopen (upstream_url_of path query_params) = Return (status_code, raw) ->
     Urllib.decode_utf8 raw = Return data ->
     should_cache_response path status_code data = Return true ->
     proxy path query_params urlopen db =
       (Response (Verbatim data) status_code
          [("Content-Type", "application/json"); ("X-Cache", "MISS")],
        db,
        [CacheRead (fingerprint path query_params);
         UpstreamCall (upstream_url_of path query_params);
         CacheWrite (fingerprint path query_params) data])).
Proof.
  intros Hc. pose proof (cacheable_is_allowed _ Hc) as Ha.
  pose proof (key_of_cacheable path query_params Hc) as Hk. split.
  - intros Hs.
    assert (Hl : cache_lookup db (key_of path query_params) = None)
      by (rewrite Hk; unfold cache_lookup, get_cached_data; rewrite Hs;
          reflexivity).
    destruct (proxy_miss path query_params urlopen db Ha Hl) as [Hr [writes Ht]].
    split.
    + rewrite Ht. apply in_or_app. right. left. reflexivity.
    + intros db_miss Hm. rewrite Hr. symmetry.
      apply (proxy_miss path query_params urlopen db_miss Ha).
      rewrite Hk. unfold cache_lookup. rewrite Hm. reflexivity.
  - intros Hw status_code raw data Hl Hu Hd Hs.
    unfold proxy. rewrite Ha, Hc. cbn [negb]. rewrite Hl.
    fold (upstream_url_of path query_params).
    unfold fetch. rewrite Hu. cbn [bind]. rewrite Hd. cbn [bind]. rewrite Hs.
    cbn [bind andb]. unfold fingerprint at 1. rewrite hexdigest_truthy.
    unfold cache_data. rewrite Hw. reflexivity.
Qed.

Lemma cache_failures_do_not_change_reply_witness :
  let path := "openexchangerates.org/api/historical/2024-01-01.json" in
  let urlopen := fun _ : string => Return (200, "{}") in
  let unreadable := Database [Row (fingerprint path []) "old" 0] 0 true false in
  let readonly := Database [] 0 false true in
  reply_of (proxy path [] urlopen unreadable) =
    reply_of (proxy path [] urlopen (init_db 0)) /\
  proxy path [] urlopen readonly =
    (Response (Verbatim "{}") 200
       [("Content-Type", "application/json"); ("X-Cache", "MISS")],
     readonly,
     [CacheRead (fingerprint path []);
      UpstreamCall (upstream_url_of path []);
      CacheWrite (fingerprint path []) "{}"]).
Proof.
  cbv zeta. split.
  - apply (cache_failures_do_not_change_reply
             "openexchangerates.org/api/historical/2024-01-01.json" []
             (fun _ => Return (200, "{}"))
             (Database
                [Row (fingerprint
                        "openexchangerates.org/api/historical/2024-01-01.json"
                        []) "old" 0] 0 true false)
             eq_refl); reflexivity.
  - apply (cache_failures_do_not_change_reply
             "openexchangerates.org/api/historical/2024-01-01.json" []
             (fun _ => Return (200, "{}")) (Database [] 0 false true)
             eq_refl) with (raw := "{}"); reflexivity.
Defined.

(** The handler changes the database through [cache_data] only. *)
Lemma proxy_keeps_reachable (path : string)
    (query_params : list (string * string))
    (urlopen : string -> outcome (Z * string)) (db : database) :
  reachable db -> reachable (database_of (proxy path query_params urlopen db)).
Proof.
  intros Hr. unfold proxy.
  destruct (is_allowed_domain path); cbn [negb]; [|exact Hr].
  destruct (cache_lookup db _); [exact Hr|].
  destruct (fetch path _ urlopen) as [[[status_code data] should_cache]|e];
    destruct (if is_cacheable_path path then _ else _) as [h|];
    try destruct (should_cache && _); try exact Hr.
  unfold database_of. cbn [fst snd].
  destruct (cache_data db h data) as [db'|e] eqn:E; [|exact Hr].
  exact (reachable_write db db' h data Hr E).
Qed.

(** The end-to-end scenarios of the test suite. *)
Example test_cache_hit :
  let target :=
    "/openexchangerates.org/api/historical/2024-01-01.json?app_id=test&base=USD" in
  let cached_response :=
    "{" ++ quoted "rates" ++ ": {" ++ quoted "AUD" ++ ": 1.5}}" in
  forall seeded,
    cache_data (init_db 0) (Sha256.hexdigest target) cached_response
      = Return seeded ->
    serve target (fun _ => Raise URLError) seeded =
      (Response (Verbatim cached_response) 200
         [("Content-Type", "application/json"); ("X-Cache", "HIT")],
       seeded, [CacheRead (Sha256.hexdigest target)]).
Proof.
  cbv zeta. intros seeded H. vm_compute in H. injection H as <-.
  vm_compute. reflexivity.
Qed.

Example test_cache_miss_and_store :
  let target :=
    "/openexchangerates.org/api/historical/2024-01-01.json?app_id=test&base=USD" in
  let upstream_body :=
    "{" ++ quoted "rates" ++ ": {" ++ quoted "AUD" ++ ": 1.5}}" in
  let run := serve target (fun _ => Return (200, upstream_body)) (init_db 0) in
  status (reply_of run) = 200 /\
  headers (reply_of run) =
    [("Content-Type", "application/json"); ("X-Cache", "MISS")] /\
  get_cached_data (database_of run) (Sha256.hexdigest target)
    = Return (Some upstream_body).
Proof. cbv zeta. repeat split; vm_compute; reflexivity. Qed.

Example test_non_cacheable_path :
  let target := "/openexchangerates.org/api/latest.json?app_id=test" in
  let upstream_body :=
    "{" ++ quoted "rates" ++ ": {" ++ quoted "AUD" ++ ": 1.5}}" in
  let run := serve target (fun _ => Return (200, upstream_body)) (init_db 0) in
  status (reply_of run) = 200 /\
  trace_of run =
    [UpstreamCall "https://openexchangerates.org/api/latest.json?app_id=test"] /\
  get_cached_data (database_of run) (Sha256.hexdigest target) = Return None.
Proof. cbv zeta. repeat split; vm_compute; reflexivity. Qed.

(** ** Request fingerprint *)






(** * Further properties of [app.py] *)

(** ** Request gate *)

Lemma prefix_iff_app (a s : string) :
  String.prefix a s = true <-> exists rest, s = a ++ rest.
Proof.
  revert s. induction a as [|c a IH]; intros s.
  - split; [intros _; exists s; reflexivity|]. intros _. destruct s; reflexivity.
  - destruct s as [|d s]; cbn [String.prefix].
    + split; [discriminate|]. intros [rest H]. discriminate H.
    + destruct (Ascii.ascii_dec c d) as [<-|Hne].
      * rewrite IH. split; intros [rest H]; exists rest.
        -- cbn. rewrite H. reflexivity.
        -- cbn in H. injection H as ->. reflexivity.
      * split; [discriminate|]. intros [rest H]. cbn in H. congruence.
Qed.

Lemma existsb_startswith (clean : string) (prefixes : list string) :
  existsb (fun p => PyStr.startswith clean p) prefixes = true <->
  exists p rest, In p prefixes /\ clean = p ++ rest.
Proof.
  rewrite existsb_exists. unfold PyStr.startswith. split.
  - intros [p [Hin Hp]]. apply prefix_iff_app in Hp. destruct Hp as [rest ->].
    exists p, rest. split; [exact Hin|reflexivity].
  - intros [p [rest [Hin ->]]]. exists p. split; [exact Hin|].
    apply prefix_iff_app. exists rest. reflexivity.
Qed.

(** X1. Both request gates are plain prefix tests on the path without its
    leading slashes: a path is allowed exactly when that text is an
    allow-listed domain followed by anything at all, and cacheable exactly
    when it is a cacheable pattern followed by anything at all. *)
Theorem gates_are_prefix_tests (path : string) :
  (is_allowed_domain path = true <->
   exists domain rest,
     In domain ALLOWED_DOMAINS /\ PyStr.lstrip_slash path = domain ++ rest) /\
  (is_cacheable_path path = true <->
   exists pattern rest,
     In pattern CACHEABLE_PATHS /\ PyStr.lstrip_slash path = pattern ++ rest).
Proof.
  split; [unfold is_allowed_domain|unfold is_cacheable_path];
    apply existsb_startswith.
Qed.

(** X2. Every cacheable path is an allowed path, so the handler never
    answers a cacheable request with the 403 of the domain check. *)
Theorem cacheable_paths_are_allowed (path : string)
    (query_params : list (string * string))
    (urlopen : string -> outcome (Z * string)) (db : database) :
  is_cacheable_path path = true ->
  is_allowed_domain path = true /\
  body (reply_of (proxy path query_params urlopen db))
    <> JsonifyError (Literal "Domain not allowed").
Proof.
  intros Hc. pose proof (cacheable_is_allowed _ Hc) as Ha. split; [exact Ha|].
  destruct (cache_lookup db (key_of path query_params)) as [d|] eqn:Hl.
  - rewrite (proxy_hit path query_params urlopen db d Ha Hl). cbn. discriminate.
  - destruct (proxy_miss path query_params urlopen db Ha Hl) as [-> _].
    destruct (fetch path _ urlopen) as [[[status_code data] should_cache]|e];
      [|destruct e]; cbn; discriminate.
Qed.

Lemma cacheable_paths_are_allowed_witness :
  is_allowed_domain "api.twelvedata.com/eod" = true /\
  body (reply_of (proxy "api.twelvedata.com/eod" []
                    (fun _ => Raise (HTTPError 403)) (init_db 0)))
    <> JsonifyError (Literal "Domain not allowed").
Proof.
  apply (cacheable_paths_are_allowed "api.twelvedata.com/eod" []
           (fun _ => Raise (HTTPError 403)) (init_db 0)).
  reflexivity.
Defined.

Lemma lstrip_slash_idempotent (path : string) :
  PyStr.lstrip_slash (PyStr.lstrip_slash path) = PyStr.lstrip_slash path.
Proof.
  induction path as [|c path IH]; [reflexivity|]. cbn.
  destruct (Ascii.eqb c "/") eqn:E; [exact IH|]. cbn. rewrite E. reflexivity.
Qed.

(** X3. The gates do not see leading slashes: with or without them a path
    gets the same answer from [is_allowed_domain], [is_cacheable_path] and
    [should_cache_response]. *)
Theorem gates_ignore_leading_slashes (path : string) :
  is_allowed_domain (PyStr.lstrip_slash path) = is_allowed_domain path /\
  is_cacheable_path (PyStr.lstrip_slash path) = is_cacheable_path path /\
  (forall (status_code : Z) (data : string),
     should_cache_response (PyStr.lstrip_slash path) status_code data =
     should_cache_response path status_code data).
Proof.
  assert (Ha : is_allowed_domain (PyStr.lstrip_slash path)
               = is_allowed_domain path)
    by (unfold is_allowed_domain; rewrite lstrip_slash_idempotent; reflexivity).
  assert (Hc : is_cacheable_path (PyStr.lstrip_slash path)
               = is_cacheable_path path)
    by (unfold is_cacheable_path; rewrite lstrip_slash_idempotent; reflexivity).
  split; [exact Ha|]. split; [exact Hc|].
  intros status_code data. unfold should_cache_response.
  rewrite Hc, lstrip_slash_idempotent. reflexivity.
Qed.

(** ** Response gate *)

(** X4. [should_cache_response] answers false, without looking at the body
    and without raising, whenever the path is not cacheable or the status is
    not 200; so an answer of true implies a cacheable path and status 200. *)
Theorem admission_needs_cacheable_and_200 (path : string) (status_code : Z)
    (data : string) :
  (is_cacheable_path path = false \/ status_code <> 200 ->
   should_cache_response path status_code data = Return false) /\
  (should_cache_response path status_code data = Return true ->
   is_cacheable_path path = true /\ status_code = 200).
Proof.
  assert (H : is_cacheable_path path = false \/ status_code <> 200 ->
              should_cache_response path status_code data = Return false).
  { unfold should_cache_response. intros [Hc|Hs].
    - rewrite Hc. reflexivity.
    - destruct (is_cacheable_path path); [|reflexivity]. cbn [negb].
      destruct (Z.eqb_spec status_code 200); [contradiction|reflexivity]. }
  split; [exact H|]. intros Ht.
  destruct (is_cacheable_path path) eqn:Hc.
  - split; [reflexivity|].
    destruct (Z.eq_dec status_code 200) as [E|E]; [exact E|].
    rewrite (H (or_intror E)) in Ht. discriminate Ht.
  - rewrite (H (or_introl eq_refl)) in Ht. discriminate Ht.
Qed.

Lemma admission_needs_cacheable_and_200_witness :
  should_cache_response "/api.twelvedata.com/other" 200 "5" = Return false /\
  should_cache_response "/api.twelvedata.com/eod" 500 "5" = Return false /\
  (is_cacheable_path "/api.twelvedata.com/eod" = true /\ 200 = 200).
Proof.
  split; [|split].
  - apply (admission_needs_cacheable_and_200 "/api.twelvedata.com/other" 200 "5").
    left. reflexivity.
  - apply (admission_needs_cacheable_and_200 "/api.twelvedata.com/eod" 500 "5").
    right. discriminate.
  - apply (admission_needs_cacheable_and_200 "/api.twelvedata.com/eod" 200
             "not-json").
    vm_compute. reflexivity.
Defined.


Lemma twelvedata_object_body_witness :
  should_cache_response "/api.twelvedata.com/eod" 200
    ("{" ++ quoted "close" ++ ": 1}") = Return true /\
  should_cache_response "/api.twelvedata.com/eod" 200
    ("{" ++ quoted "code" ++ ": 503}") = Return false.
Proof.
  assert (H1 : Json.loads ("{" ++ quoted "close" ++ ": 1}")
               = Return (PyDict [("close", PyInt 1)]))
    by (vm_compute; reflexivity).
  assert (H2 : Json.loads ("{" ++ quoted "code" ++ ": 503}")
               = Return (PyDict [("code", PyInt 503)]))
    by (vm_compute; reflexivity).
  split.
  - exact (proj1 (twelvedata_object_body "/api.twelvedata.com/eod" _ _
                    eq_refl eq_refl H1) eq_refl).
  - exact (proj2 (twelvedata_object_body "/api.twelvedata.com/eod" _ _
                    eq_refl eq_refl H2) 503 eq_refl).
Defined.


(** ** Cache store *)

(** X8. A write to one key leaves the lookup of every other key as it
    was. *)
Theorem write_leaves_other_keys (db db' : database) (k v k' : string) :
  cache_data db k v = Return db' ->
  k' <> k ->
  get_cached_data db' k' = get_cached_data db k'.
Proof.
  unfold cache_data. destruct (insert_fails db); [discriminate|].
  intros H Hne. injection H as <-. unfold get_cached_data.
  cbn [select_fails rows]. destruct (select_fails db); [reflexivity|].
  rewrite fetchone_insert_or_replace_other by exact Hne. reflexivity.
Qed.

Lemma write_leaves_other_keys_witness :
  get_cached_data (Database [Row "a" "1" 0; Row "b" "2" 5] 5 false false) "a"
  = get_cached_data (Database [Row "a" "1" 0] 5 false false) "a".
Proof.
  apply (write_leaves_other_keys (Database [Row "a" "1" 0] 5 false false)
           (Database [Row "a" "1" 0; Row "b" "2" 5] 5 false false)
           "b" "2" "a").
  - reflexivity.
  - discriminate.
Defined.

Lemma cache_data_working (db : database) (k v : string) :
  insert_fails db = false ->
  exists db', cache_data db k v = Return db' /\
              select_fails db' = select_fails db /\
              insert_fails db' = false /\
              rows db' = insert_or_replace (rows db) k v (current_timestamp db).
Proof.
  intros Hw. unfold cache_data. rewrite Hw. eexists. split; [reflexivity|].
  cbn. auto.
Qed.

(** X9. On a working store, after any sequence of writes the lookup of a key
    returns the payload of the last write to that key, and what the database
    held before when the sequence has no write to it. *)
Theorem last_write_wins (db : database) (writes : list (string * string))
    (k : string) :
  select_fails db = false ->
  insert_fails db = false ->
  get_cached_data (cache_all db writes) k =
    match last_write writes k with
    | Some v => Return (Some v)
    | None => get_cached_data db k
    end.
Proof.
  revert db. induction writes as [|[k' v] writes IH]; intros db Hr Hw.
  - reflexivity.
  - cbn [cache_all last_write].
    destruct (cache_data_working db k' v Hw) as [db1 [E [Hr1 [Hw1 Hrows]]]].
    rewrite E. rewrite IH by congruence.
    destruct (last_write writes k); [reflexivity|].
    unfold get_cached_data. rewrite Hr1, Hr, Hrows.
    destruct (String.eqb_spec k' k) as [->|Hne].
    + rewrite fetchone_insert_or_replace. reflexivity.
    + rewrite fetchone_insert_or_replace_other by congruence. reflexivity.
Qed.

Lemma last_write_wins_witness :
  get_cached_data
    (cache_all (init_db 0) [("a", "1"); ("b", "2"); ("a", "3")]) "a"
  = Return (Some "3").
Proof.
  apply (last_write_wins (init_db 0) [("a", "1"); ("b", "2"); ("a", "3")] "a");
    reflexivity.
Defined.

Lemma fetchone_survives_insert (table : list row) (k k' v' : string) (now : Z) :
  fetchone table k <> None ->
  fetchone (insert_or_replace table k' v' now) k <> None.
Proof.
  intros H. destruct (String.eqb_spec k k') as [->|Hne].
  - rewrite fetchone_insert_or_replace. discriminate.
  - rewrite fetchone_insert_or_replace_other by exact Hne. exact H.
Qed.

Lemma length_insert_or_replace (table : list row) (k v : string) (now : Z) :
  (length (insert_or_replace table k v now) + count table k
   = S (length table))%nat.
Proof.
  unfold insert_or_replace, count. rewrite length_app. cbn [length].
  induction table as [|r table IH]; [reflexivity|]. cbn [filter].
  destruct (String.eqb (requestHash r) k); cbn [negb length]; lia.
Qed.

Lemma count_zero_iff_absent (table : list row) (k : string) :
  count table k = 0%nat <-> fetchone table k = None.
Proof.
  unfold count. induction table as [|r table IH]; cbn; [tauto|].
  destruct (String.eqb (requestHash r) k); cbn; [|exact IH].
  split; discriminate.
Qed.

(** X10. In a database reached from [init_db] by writes, overwriting an
    existing key keeps the number of rows, and writing a new key adds exactly
    one row. *)
Theorem write_grows_table_by_new_keys_only (db db' : database) (k v : string) :
  reachable db ->
  cache_data db k v = Return db' ->
  length (rows db') =
    match fetchone (rows db) k with
    | Some _ => length (rows db)
    | None => S (length (rows db))
    end.
Proof.
  intros Hreach H.
  pose proof (reachable_unique db Hreach k) as Hu.
  unfold cache_data in H. destruct (insert_fails db); [discriminate|].
  injection H as <-. cbn [rows].
  pose proof (length_insert_or_replace (rows db) k v (current_timestamp db)) as Hl.
  pose proof (count_zero_iff_absent (rows db) k) as Hz.
  destruct (fetchone (rows db) k) as [r|].
  - assert (count (rows db) k <> 0%nat) by (intros E; apply Hz in E; discriminate).
    lia.
  - assert (count (rows db) k = 0%nat) by (apply Hz; reflexivity). lia.
Qed.

Lemma write_grows_table_by_new_keys_only_witness :
  length (rows (Database [Row "a" "2" 0] 0 false false)) = 1%nat /\
  length (rows (Database [Row "a" "2" 0; Row "b" "3" 0] 0 false false)) = 2%nat.
Proof.
  assert (H1 : reachable (Database [Row "a" "1" 0] 0 false false))
    by exact (reachable_write (init_db 0) _ "a" "1" (reachable_init 0) eq_refl).
  assert (H2 : reachable (Database [Row "a" "2" 0] 0 false false))
    by exact (reachable_write _ _ "a" "2" H1 eq_refl).
  split.
  - exact (write_grows_table_by_new_keys_only
             (Database [Row "a" "1" 0] 0 false false)
             (Database [Row "a" "2" 0] 0 false false) "a" "2" H1 eq_refl).
  - exact (write_grows_table_by_new_keys_only
             (Database [Row "a" "2" 0] 0 false false)
             (Database [Row "a" "2" 0; Row "b" "3" 0] 0 false false)
             "b" "3" H2 eq_refl).
Defined.

(** ** Proxy handler *)

Lemma fetch_admitted (path url : string)
    (urlopen : string -> outcome (Z * string)) (status_code : Z)
    (data : string) (should_cache : bool) :
  fetch path url urlopen = Return (status_code, data, should_cache) ->
  exists raw,
    urlopen url = Return (status_code, raw) /\
    Urllib.decode_utf8 raw = Return data /\
    should_cache_response path status_code data = Return should_cache.
Proof.
  unfold fetch. destruct (urlopen url) as [[st raw]|e]; [|discriminate].
  cbn [bind]. destruct (Urllib.decode_utf8 raw) as [d|e] eqn:Ed; [|discriminate].
  cbn [bind]. destruct (should_cache_response path st d) as [b|e] eqn:Es;
    [|discriminate].
  cbn [bind]. intros H. injection H as H1 H2 H3. subst.
  exists raw. repeat split; assumption.
Qed.

(** The four ways a run of the handler can go. *)
Lemma proxy_run_shape (path : string) (query_params : list (string * string))
    (urlopen : string -> outcome (Z * string)) (db : database) :
  let run := proxy path query_params urlopen db in
  let fp := fingerprint path query_params in
  let url := upstream_url_of path query_params in
  (is_allowed_domain path = false /\
   run = (Response (JsonifyError (Literal "Domain not allowed")) 403 [],
          db, [])) \/
  (is_cacheable_path path = true /\
   exists cached_data,
     cached_data <> "" /\
     get_cached_data db fp = Return (Some cached_data) /\
     run = (Response (Verbatim cached_data) 200 (cache_headers "HIT"), db,
            [CacheRead fp])) \/
  (is_allowed_domain path = true /\
   cache_lookup db (key_of path query_params) = None /\
   run = (upstream_reply (fetch path url urlopen), db,
          (reads_of (key_of path query_params) ++ [UpstreamCall url])%list) /\
   (is_cacheable_path path = true ->
    forall status_code data,
      fetch path url urlopen <> Return (status_code, data, true))) \/
  (is_cacheable_path path = true /\
   cache_lookup db (Some fp) = None /\
   exists status_code data,
     fetch path url urlopen = Return (status_code, data, true) /\
     run = (Response (Verbatim data) status_code (cache_headers "MISS"),
            match cache_data db fp data with
            | Return db' => db'
            | Raise _ => db
            end,
            [CacheRead fp; UpstreamCall url; CacheWrite fp data])).
Proof.
  cbv zeta.
  destruct (is_allowed_domain path) eqn:Ha.
  2:{ left. split; [reflexivity|]. apply proxy_forbidden. exact Ha. }
  right.
  destruct (cache_lookup db (key_of path query_params)) as [d|] eqn:Hl.
  - left. rewrite (proxy_hit _ _ _ _ d Ha Hl).
    unfold key_of in *. destruct (is_cacheable_path path); [|discriminate Hl].
    split; [reflexivity|]. exists d. unfold cache_lookup in Hl.
    destruct (get_cached_data db _) as [[c|]|e]; try discriminate Hl.
    destruct c; [discriminate Hl|]. injection Hl as <-.
    split; [discriminate|]. split; reflexivity.
  - right. unfold proxy. rewrite Ha. cbn [negb].
    fold (key_of path query_params) (upstream_url_of path query_params).
    rewrite Hl. unfold key_of in *.
    destruct (is_cacheable_path path) eqn:Hc.
    + destruct (fetch path _ urlopen) as [[[status_code data] [|]]|e] eqn:Hf.
      * right. split; [reflexivity|]. split; [exact Hl|].
        exists status_code, data. split; [reflexivity|].
        unfold fingerprint at 1. rewrite hexdigest_truthy. reflexivity.
      * left. split; [reflexivity|]. split; [reflexivity|].
        split; [reflexivity|]. intros _ s d. discriminate.
      * left. split; [reflexivity|]. split; [reflexivity|].
        split; [reflexivity|]. intros _ s d. discriminate.
    + left. split; [reflexivity|]. split; [reflexivity|]. split.
      * destruct (fetch path _ urlopen) as [[[status_code data] b]|e];
          reflexivity.
      * discriminate.
Qed.

(** X11. A request for an allowed path that is not cacheable is passed
    through: the handler makes exactly one call, to the upstream, never reads
    or writes the cache, leaves the database as it is, and replies with the
    upstream status and body marked [MISS], whatever that status is. *)
Theorem non_cacheable_request_is_passed_through (path : string)
    (query_params : list (string * string))
    (urlopen : string -> outcome (Z * string)) (db : database)
    (status_code : Z) (raw data : string) :
  is_allowed_domain path = true ->
  is_cacheable_path path = false ->
  urlopen (upstream_url_of path query_params) = Return (status_code, raw) ->
  Urllib.decode_utf8 raw = Return data ->
  proxy path query_params urlopen db =
    (Response (Verbatim data) status_code
       [("Content-Type", "application/json"); ("X-Cache", "MISS")],
     db, [UpstreamCall (upstream_url_of path query_params)]).
Proof.
  intros Ha Hc Hu Hd. unfold proxy. rewrite Ha, Hc. cbn [negb cache_lookup].
  fold (upstream_url_of path query_params). unfold fetch.
  rewrite Hu. cbn [bind]. rewrite Hd. cbn [bind].
  unfold should_cache_response. rewrite Hc. reflexivity.
Qed.

Lemma non_cacheable_request_is_passed_through_witness :
  proxy "openexchangerates.org/api/latest.json" [("app_id", "test")]
    (fun _ => Return (204, "")) (init_db 0) =
    (Response (Verbatim "") 204
       [("Content-Type", "application/json"); ("X-Cache", "MISS")],
     init_db 0,
     [UpstreamCall
        (upstream_url_of "openexchangerates.org/api/latest.json"
           [("app_id", "test")])]).
Proof.
  apply (non_cacheable_request_is_passed_through
           "openexchangerates.org/api/latest.json" [("app_id", "test")]
           (fun _ => Return (204, "")) (init_db 0) 204 "" "");
    reflexivity.
Defined.

(** X12. After a miss whose upstream response was admitted and stored, the
    same request is a hit: on a working store and for a non-empty body, the
    next run returns that body with status 200 and [X-Cache: HIT] and makes
    no upstream call, whatever the upstream would answer then. *)
Theorem miss_then_hit (path : string) (query_params : list (string * string))
    (urlopen urlopen' : string -> outcome (Z * string)) (db : database)
    (raw data : string) :
  is_cacheable_path path = true ->
  select_fails db = false ->
  insert_fails db = false ->
  cache_lookup db (Some (fingerprint path query_params)) = None ->
  urlopen (upstream_url_of path query_params) = Return (200, raw) ->
  Urllib.decode_utf8 raw = Return data ->
  should_cache_response path 200 data = Return true ->
  data <> "" ->
  let db' := database_of (proxy path query_params urlopen db) in
  get_cached_data db' (fingerprint path query_params) = Return (Some data) /\
  proxy path query_params urlopen' db' =
    (Response (Verbatim data) 200
       [("Content-Type", "application/json"); ("X-Cache", "HIT")],
     db', [CacheRead (fingerprint path query_params)]).
Proof.
  intros Hc Hr Hw Hl Hu Hd Hs Hne. cbv zeta.
  pose proof (cacheable_is_allowed _ Hc) as Ha.
  assert (Hdb : database_of (proxy path query_params urlopen db) =
                Database
                  (insert_or_replace (rows db) (fingerprint path query_params)
                     data (current_timestamp db))
                  (current_timestamp db) false false).
  { unfold proxy. rewrite Ha, Hc. cbn [negb]. rewrite Hl.
    fold (upstream_url_of path query_params). unfold fetch.
    rewrite Hu. cbn [bind]. rewrite Hd. cbn [bind]. rewrite Hs.
    cbn [bind andb]. unfold fingerprint at 1. rewrite hexdigest_truthy.
    unfold cache_data. rewrite Hw, Hr. reflexivity. }
  rewrite Hdb.
  assert (Hg : get_cached_data
                 (Database
                    (insert_or_replace (rows db)
                       (fingerprint path query_params) data
                       (current_timestamp db))
                    (current_timestamp db) false false)
                 (fingerprint path query_params) = Return (Some data)).
  { unfold get_cached_data. cbn [select_fails rows].
    rewrite fetchone_insert_or_replace. reflexivity. }
  split; [exact Hg|].
  rewrite (proxy_hit path query_params urlopen' _ data Ha).
  - rewrite (key_of_cacheable _ _ Hc). reflexivity.
  - rewrite (key_of_cacheable _ _ Hc). unfold cache_lookup. rewrite Hg.
    destruct data; [contradiction|reflexivity].
Qed.

Lemma miss_then_hit_witness :
  let path := "openexchangerates.org/api/historical/2024-01-01.json" in
  let db' := database_of (proxy path [] (fun _ => Return (200, "{}"))
                            (init_db 0)) in
  get_cached_data db' (fingerprint path []) = Return (Some "{}") /\
  proxy path [] (fun _ => Raise URLError) db' =
    (Response (Verbatim "{}") 200
       [("Content-Type", "application/json"); ("X-Cache", "HIT")],
     db', [CacheRead (fingerprint path [])]).
Proof.
  cbv zeta.
  apply (miss_then_hit "openexchangerates.org/api/historical/2024-01-01.json"
           [] (fun _ => Return (200, "{}")) (fun _ => Raise URLError)
           (init_db 0) "{}" "{}"); try reflexivity.
  discriminate.
Defined.

(** X23. An upstream response that the response gate rejects still reaches
    the client: for a cacheable path without a hit, the handler replies with
    the upstream status and body marked [MISS], writes nothing and leaves the
    database as it is. *)
Theorem rejected_response_is_not_stored (path : string)
    (query_params : list (string * string))
    (urlopen : string -> outcome (Z * string)) (db : database)
    (status_code : Z) (raw data : string) :
  is_cacheable_path path = true ->
  cache_lookup db (Some (fingerprint path query_params)) = None ->
  urlopen (upstream_url_of path query_params) = Return (status_code, raw) ->
  Urllib.decode_utf8 raw = Return data ->
  should_cache_response path status_code data = Return false ->
  proxy path query_params urlopen db =
    (Response (Verbatim data) status_code
       [("Content-Type", "application/json"); ("X-Cache", "MISS")],
     db,
     [CacheRead (fingerprint path query_params);
      UpstreamCall (upstream_url_of path query_params)]).
Proof.
  intros Hc Hl Hu Hd Hs. pose proof (cacheable_is_allowed _ Hc) as Ha.
  unfold proxy. rewrite Ha, Hc. cbn [negb]. rewrite Hl.
  fold (upstream_url_of path query_params). unfold fetch.
  rewrite Hu. cbn [bind]. rewrite Hd. cbn [bind]. rewrite Hs. reflexivity.
Qed.

Lemma rejected_response_is_not_stored_witness :
  let path := "api.twelvedata.com/eod" in
  let data := "{" ++ quoted "code" ++ ": 429}" in
  proxy path [] (fun _ => Return (200, data)) (init_db 0) =
    (Response (Verbatim data) 200
       [("Content-Type", "application/json"); ("X-Cache", "MISS")],
     init_db 0,
     [CacheRead (fingerprint path []); UpstreamCall (upstream_url_of path [])]).
Proof.
  cbv zeta.
  apply (rejected_response_is_not_stored "api.twelvedata.com/eod" []
           (fun _ => Return (200, "{" ++ quoted "code" ++ ": 429}"))
           (init_db 0) 200 ("{" ++ quoted "code" ++ ": 429}"));
    reflexivity.
Defined.

(** X13. When the upstream request raises, the handler replies with the JSON
    error of the exception, with the status of an [HTTPError] or 500 for any
    other exception, and the database is left as it is: nothing is written. *)
Theorem upstream_failure_is_reported (path : string)
    (query_params : list (string * string))
    (urlopen : string -> outcome (Z * string)) (db : database) (e : exn) :
  is_allowed_domain path = true ->
  cache_lookup db (key_of path query_params) = None ->
  urlopen (upstream_url_of path query_params) = Raise e ->
  proxy path query_params urlopen db =
    (Response (JsonifyError (StrOf e))
       match e with
       | HTTPError code => code
       | _ => 500
       end [],
     db,
     (reads_of (key_of path query_params)
        ++ [UpstreamCall (upstream_url_of path query_params)])%list).
Proof.
  intros Ha Hl Hu. unfold proxy. rewrite Ha. cbn [negb].
  fold (key_of path query_params) (upstream_url_of path query_params).
  rewrite Hl. unfold fetch. rewrite Hu. cbn [bind].
  destruct (key_of path query_params); destruct e; reflexivity.
Qed.

Lemma upstream_failure_is_reported_witness :
  proxy "api.twelvedata.com/eod" [] (fun _ => Raise (HTTPError 404))
    (init_db 0) =
    (Response (JsonifyError (StrOf (HTTPError 404))) 404 [], init_db 0,
     (reads_of (key_of "api.twelvedata.com/eod" [])
        ++ [UpstreamCall (upstream_url_of "api.twelvedata.com/eod" [])])%list).
Proof.
  apply (upstream_failure_is_reported "api.twelvedata.com/eod" []
           (fun _ => Raise (HTTPError 404)) (init_db 0) (HTTPError 404));
    reflexivity.
Defined.

(** X14. When the upstream body is not valid UTF-8, the handler replies 500
    with the JSON error of the [UnicodeDecodeError], whatever the upstream
    status was, and writes nothing. *)
Theorem undecodable_body_is_a_500 (path : string)
    (query_params : list (string * string))
    (urlopen : string -> outcome (Z * string)) (db : database)
    (status_code : Z) (raw : string) :
  is_allowed_domain path = true ->
  cache_lookup db (key_of path query_params) = None ->
  urlopen (upstream_url_of path query_params) = Return (status_code, raw) ->
  Urllib.utf8_valid raw = false ->
  proxy path query_params urlopen db =
    (Response (JsonifyError (StrOf UnicodeDecodeError)) 500 [], db,
     (reads_of (key_of path query_params)
        ++ [UpstreamCall (upstream_url_of path query_params)])%list).
Proof.
  intros Ha Hl Hu Hv. unfold proxy. rewrite Ha. cbn [negb].
  fold (key_of path query_params) (upstream_url_of path query_params).
  rewrite Hl. unfold fetch, Urllib.decode_utf8. rewrite Hu. cbn [bind].
  rewrite Hv. cbn [bind].
  destruct (key_of path query_params); reflexivity.
Qed.

Lemma undecodable_body_is_a_500_witness :
  proxy "api.twelvedata.com/eod" []
    (fun _ => Return (200, String "255"%char EmptyString)) (init_db 0) =
    (Response (JsonifyError (StrOf UnicodeDecodeError)) 500 [], init_db 0,
     (reads_of (key_of "api.twelvedata.com/eod" [])
        ++ [UpstreamCall (upstream_url_of "api.twelvedata.com/eod" [])])%list).
Proof.
  apply (undecodable_body_is_a_500 "api.twelvedata.com/eod" []
           (fun _ => Return (200, String "255"%char EmptyString)) (init_db 0)
           200 (String "255"%char EmptyString));
    reflexivity.
Defined.

Lemma admitted_means_200 (path : string) (status_code : Z) (data : string) :
  should_cache_response path status_code data = Return true ->
  status_code = 200.
Proof.
  unfold should_cache_response.
  destruct (is_cacheable_path path); [|discriminate]. cbn [negb].
  destruct (Z.eqb_spec status_code 200); [auto|discriminate].
Qed.

(** X15. The handler writes to the cache only what the response gate
    admitted: every write it makes is under the fingerprint of the request,
    of the decoded body of an upstream response with status 200 for which
    [should_cache_response] returned true, and that body is also the one it
    replies with. *)
Theorem only_admitted_bodies_are_written (path : string)
    (query_params : list (string * string))
    (urlopen : string -> outcome (Z * string)) (db : database)
    (h d : string) :
  In (CacheWrite h d) (trace_of (proxy path query_params urlopen db)) ->
  h = fingerprint path query_params /\
  is_cacheable_path path = true /\
  (exists raw,
     urlopen (upstream_url_of path query_params) = Return (200, raw) /\
     Urllib.decode_utf8 raw = Return d) /\
  should_cache_response path 200 d = Return true /\
  reply_of (proxy path query_params urlopen db) =
    Response (Verbatim d) 200
      [("Content-Type", "application/json"); ("X-Cache", "MISS")].
Proof.
  intros Hin.
  destruct (proxy_run_shape path query_params urlopen db)
    as [[_ E]|[[_ [c [_ [_ E]]]]|[[_ [_ [E _]]]|[Hc [_ [s [data [Hf E]]]]]]]];
    rewrite E in Hin |- *; cbn in Hin.
  - destruct Hin.
  - destruct Hin as [H|[]]. discriminate H.
  - apply in_app_or in Hin. destruct Hin as [Hin|[H|[]]]; [|discriminate H].
    destruct (key_of path query_params); cbn in Hin;
      [destruct Hin as [H|[]]; discriminate H|destruct Hin].
  - destruct Hin as [H|[H|[H|[]]]]; try discriminate H.
    injection H as <- <-.
    destruct (fetch_admitted _ _ _ _ _ _ Hf) as [raw [Hu [Hd Hs]]].
    pose proof (admitted_means_200 _ _ _ Hs) as ->.
    split; [reflexivity|]. split; [exact Hc|].
    split; [exists raw; split; assumption|]. split; [exact Hs|reflexivity].
Qed.

Lemma only_admitted_bodies_are_written_witness :
  let path := "openexchangerates.org/api/historical/2024-01-01.json" in
  let urlopen := fun _ : string => Return (200, "{}") in
  fingerprint path [] = fingerprint path [] /\
  is_cacheable_path path = true /\
  (exists raw,
     urlopen (upstream_url_of path []) = Return (200, raw) /\
     Urllib.decode_utf8 raw = Return "{}") /\
  should_cache_response path 200 "{}" = Return true /\
  reply_of (proxy path [] urlopen (init_db 0)) =
    Response (Verbatim "{}") 200
      [("Content-Type", "application/json"); ("X-Cache", "MISS")].
Proof.
  cbv zeta.
  apply (only_admitted_bodies_are_written
           "openexchangerates.org/api/historical/2024-01-01.json" []
           (fun _ => Return (200, "{}")) (init_db 0)).
  vm_compute. right. right. left. reflexivity.
Defined.

Lemma proxy_database (path : string) (query_params : list (string * string))
    (urlopen : string -> outcome (Z * string)) (db : database) :
  database_of (proxy path query_params urlopen db) = db \/
  exists d,
    cache_data db (fingerprint path query_params) d =
      Return (database_of (proxy path query_params urlopen db)).
Proof.
  destruct (proxy_run_shape path query_params urlopen db)
    as [[_ E]|[[_ [c [_ [_ E]]]]|[[_ [_ [E _]]]|[Hc [_ [s [data [Hf E]]]]]]]];
    rewrite E; unfold database_of; cbn [fst snd]; auto.
  destruct (cache_data db _ data) as [db'|e] eqn:Ew; [|auto].
  right. exists data. exact Ew.
Qed.

(** X16. A run of the handler touches no entry but that of its own request:
    the lookup of every other key is the same after the run as before, and a
    key that had an entry still has one. *)
Theorem handler_touches_only_its_key (path : string)
    (query_params : list (string * string))
    (urlopen : string -> outcome (Z * string)) (db : database) (k : string) :
  let db' := database_of (proxy path query_params urlopen db) in
  (k <> fingerprint path query_params ->
   get_cached_data db' k = get_cached_data db k) /\
  (forall v, get_cached_data db k = Return (Some v) ->
             exists v', get_cached_data db' k = Return (Some v')).
Proof.
  cbv zeta.
  destruct (proxy_database path query_params urlopen db) as [->|[d Hw]].
  - split; [reflexivity|]. intros v H. exists v. exact H.
  - revert Hw. generalize (database_of (proxy path query_params urlopen db)).
    intros db' Hw. unfold cache_data in Hw.
    destruct (insert_fails db); [discriminate|]. injection Hw as <-.
    unfold get_cached_data. cbn [select_fails rows].
    destruct (select_fails db); [split; [reflexivity|discriminate]|]. split.
    + intros Hne. rewrite fetchone_insert_or_replace_other by exact Hne.
      reflexivity.
    + intros v Hv.
      pose proof (fetchone_survives_insert (rows db) k
                    (fingerprint path query_params) d (current_timestamp db))
        as Hs.
      destruct (fetchone (rows db) k) as [r|]; [|discriminate Hv].
      destruct (fetchone (insert_or_replace _ _ _ _) k) as [r'|].
      * eexists. reflexivity.
      * exfalso. apply Hs; [discriminate|reflexivity].
Qed.

Lemma handler_touches_only_its_key_witness :
  let path := "openexchangerates.org/api/historical/2024-01-01.json" in
  let db := Database [Row "other" "kept" 0] 0 false false in
  let db' := database_of (proxy path [] (fun _ => Return (200, "{}")) db) in
  get_cached_data db' "other" = get_cached_data db "other".
Proof.
  cbv zeta.
  apply (handler_touches_only_its_key
           "openexchangerates.org/api/historical/2024-01-01.json" []
           (fun _ => Return (200, "{}"))
           (Database [Row "other" "kept" 0] 0 false false) "other").
  vm_compute. discriminate.
Defined.

(** X17. A reply marked [X-Cache: HIT] is always a stored body: the path is
    cacheable, the store holds that non-empty body under the fingerprint of
    the request, the status is 200, the database is unchanged and the cache
    read was the only call. *)
Theorem hit_reply_is_a_stored_body (path : string)
    (query_params : list (string * string))
    (urlopen : string -> outcome (Z * string)) (db : database) :
  headers (reply_of (proxy path query_params urlopen db))
    = [("Content-Type", "application/json"); ("X-Cache", "HIT")] ->
  is_cacheable_path path = true /\
  exists cached_data,
    cached_data <> "" /\
    get_cached_data db (fingerprint path query_params)
      = Return (Some cached_data) /\
    proxy path query_params urlopen db =
      (Response (Verbatim cached_data) 200
         [("Content-Type", "application/json"); ("X-Cache", "HIT")],
       db, [CacheRead (fingerprint path query_params)]).
Proof.
  intros H.
  destruct (proxy_run_shape path query_params urlopen db)
    as [[_ E]|[[Hc [c [Hne [Hg E]]]]|[[_ [_ [E _]]]|[_ [_ [s [data [_ E]]]]]]]];
    rewrite E in H |- *; unfold reply_of in H; cbn [fst snd] in H.
  - discriminate H.
  - split; [exact Hc|]. exists c. auto.
  - exfalso. exact (upstream_reply_not_hit _ H).
  - discriminate H.
Qed.

Lemma hit_reply_is_a_stored_body_witness :
  let path := "api.twelvedata.com/eod" in
  let db := Database [Row (fingerprint path []) "[]" 0] 0 false false in
  is_cacheable_path path = true /\
  exists cached_data,
    cached_data <> "" /\
    get_cached_data db (fingerprint path []) = Return (Some cached_data) /\
    proxy path [] (fun _ => Raise URLError) db =
      (Response (Verbatim cached_data) 200
         [("Content-Type", "application/json"); ("X-Cache", "HIT")],
       db, [CacheRead (fingerprint path [])]).
Proof.
  cbv zeta.
  apply (hit_reply_is_a_stored_body "api.twelvedata.com/eod" []
           (fun _ => Raise URLError)).
  vm_compute. reflexivity.
Defined.


(** X19. The handler keeps the table well formed: from a database reached
    from [init_db] by writes, the database after a run is again such a
    database, and no key has more than one row in it. *)
Theorem handler_keeps_one_row_per_key (path : string)
    (query_params : list (string * string))
    (urlopen : string -> outcome (Z * string)) (db : database) :
  reachable db ->
  reachable (database_of (proxy path query_params urlopen db)) /\
  forall k,
    (count (rows (database_of (proxy path query_params urlopen db))) k
     <= 1)%nat.
Proof.
  intros Hr.
  pose proof (proxy_keeps_reachable path query_params urlopen db Hr) as Hr'.
  split; [exact Hr'|]. apply reachable_unique. exact Hr'.
Qed.

Lemma handler_keeps_one_row_per_key_witness :
  let path := "openexchangerates.org/api/historical/2024-01-01.json" in
  let run := proxy path [] (fun _ => Return (200, "{}")) (init_db 0) in
  reachable (database_of run) /\
  forall k, (count (rows (database_of run)) k <= 1)%nat.
Proof.
  cbv zeta.
  apply (handler_keeps_one_row_per_key
           "openexchangerates.org/api/historical/2024-01-01.json" []
           (fun _ => Return (200, "{}")) (init_db 0)).
  apply reachable_init.
Defined.

(** ** Upstream URL and query string *)

Lemma all_chars_app (p : ascii -> bool) (a b : string) :
  all_chars p (a ++ b) = all_chars p a && all_chars p b.
Proof.
  induction a as [|c a IH]; [reflexivity|]. cbn. rewrite IH.
  apply andb_assoc.
Qed.

Lemma quote_plus_char (c : ascii) (s : string) :
  let e := Urllib.quote_plus (String c EmptyString) in
  Urllib.quote_plus (String c s) = e ++ Urllib.quote_plus s /\
  e <> EmptyString /\
  all_chars query_char e = true /\
  all_chars not_separator e = true /\
  forall t, Wsgi.unquote_plus (e ++ t) = String c (Wsgi.unquote_plus t).
Proof.
  destruct c as [[] [] [] [] [] [] [] []]; cbv zeta;
    (split; [reflexivity|]);
    (split; [vm_compute; discriminate|]); (split; [vm_compute; reflexivity|]);
    (split; [vm_compute; reflexivity|]); intros t; reflexivity.
Qed.

Lemma quote_plus_chars (s : string) :
  all_chars query_char (Urllib.quote_plus s) = true /\
  all_chars not_separator (Urllib.quote_plus s) = true /\
  Wsgi.unquote_plus (Urllib.quote_plus s) = s.
Proof.
  induction s as [|c s [IH1 [IH2 IH3]]]; [repeat split|].
  destruct (quote_plus_char c s) as [-> [_ [H1 [H2 H3]]]].
  rewrite !all_chars_app, H1, H2, IH1, IH2, H3, IH3. repeat split.
Qed.

(** X20. The query string the handler appends to the upstream URL consists
    only of letters, digits, [_.-~], [+], [%], [=] and [&]: whatever the
    query parameters hold, it has no space, no [?], no [#] and no byte
    outside ASCII. *)
Theorem query_string_alphabet (query_params : list (string * string)) :
  all_chars query_char (Urllib.urlencode query_params) = true.
Proof.
  unfold Urllib.urlencode.
  induction query_params as [|[k v] rest IH]; [reflexivity|].
  assert (Hitem : all_chars query_char
                    (Urllib.quote_plus k ++ "=" ++ Urllib.quote_plus v) = true).
  { rewrite !all_chars_app.
    rewrite (proj1 (quote_plus_chars k)), (proj1 (quote_plus_chars v)).
    reflexivity. }
  cbn [map Urllib.join_amp fst snd] in *.
  destruct (map _ rest) as [|item items]; [exact Hitem|].
  rewrite !all_chars_app in *. rewrite IH.
  rewrite (proj1 (quote_plus_chars k)), (proj1 (quote_plus_chars v)).
  reflexivity.
Qed.

Lemma partition_eq_app (a b : string) :
  all_chars not_separator a = true ->
  Wsgi.partition_eq (a ++ String "=" b) = (a, b).
Proof.
  induction a as [|c a IH]; intros H; [reflexivity|].
  cbn in H. apply andb_true_iff in H. destruct H as [Hc Ha].
  cbn [append Wsgi.partition_eq]. unfold not_separator in Hc.
  destruct (Ascii.eqb c "="); [rewrite andb_false_r in Hc; discriminate|].
  rewrite (IH Ha). reflexivity.
Qed.

Lemma all_chars_not_amp (a : string) :
  all_chars not_separator a = true -> all_chars not_amp a = true.
Proof.
  induction a as [|c a IH]; [reflexivity|]. cbn. unfold not_separator at 1.
  intros H. apply andb_true_iff in H. destruct H as [Hc Ha].
  apply andb_true_iff in Hc. destruct Hc as [-> _]. exact (IH Ha).
Qed.

Lemma split_amp_app (a rest : string) :
  all_chars not_amp a = true ->
  Wsgi.split "&" (a ++ String "&" rest) = a :: Wsgi.split "&" rest.
Proof.
  induction a as [|c a IH]; intros H; [reflexivity|].
  cbn in H. apply andb_true_iff in H. destruct H as [Hc Ha].
  cbn [append Wsgi.split]. unfold not_amp in Hc.
  destruct (Ascii.eqb c "&"); [discriminate|].
  rewrite (IH Ha). reflexivity.
Qed.

Lemma split_amp_single (a : string) :
  all_chars not_amp a = true -> Wsgi.split "&" a = [a].
Proof.
  induction a as [|c a IH]; intros H; [reflexivity|].
  cbn in H. apply andb_true_iff in H. destruct H as [Hc Ha].
  cbn [Wsgi.split]. unfold not_amp in Hc.
  destruct (Ascii.eqb c "&"); [discriminate|].
  rewrite (IH Ha). reflexivity.
Qed.

(** One [name=value] item of an encoded query. *)
Lemma encoded_item (k v : string) :
  let item := (Urllib.quote_plus k ++ String "=" (Urllib.quote_plus v))%string in
  all_chars not_amp item = true /\
  match item with
  | EmptyString => []
  | _ => let (n, w) := Wsgi.partition_eq item in
         [(Wsgi.unquote_plus n, Wsgi.unquote_plus w)]
  end = [(k, v)].
Proof.
  cbv zeta.
  destruct (quote_plus_chars k) as [_ [Hk Uk]].
  destruct (quote_plus_chars v) as [_ [Hv Uv]].
  split.
  - rewrite all_chars_app. cbn [all_chars].
    rewrite (all_chars_not_amp _ Hk), (all_chars_not_amp _ Hv). reflexivity.
  - rewrite (partition_eq_app _ _ Hk), Uk, Uv.
    destruct (Urllib.quote_plus k); reflexivity.
Qed.

(** Parsing an encoded query gives back the pairs that were encoded. *)
Lemma parse_qsl_urlencode (query_params : list (string * string)) :
  Wsgi.parse_qsl (Urllib.urlencode query_params) = query_params.
Proof.
  unfold Wsgi.parse_qsl, Urllib.urlencode.
  induction query_params as [|[k v] rest IH]; [reflexivity|].
  destruct (encoded_item k v) as [Hamp Hparse].
  cbn [map fst snd Urllib.join_amp] in *.
  change ("=" ++ Urllib.quote_plus v)%string
    with (String "=" (Urllib.quote_plus v)).
  destruct (map _ rest) as [|item items].
  - rewrite (split_amp_single _ Hamp). cbn [flat_map].
    rewrite Hparse. destruct rest; [reflexivity|discriminate IH].
  - change ("&" ++ Urllib.join_amp (item :: items))%string
      with (String "&" (Urllib.join_amp (item :: items))).
    rewrite (split_amp_app _ _ Hamp). cbn [flat_map].
    rewrite Hparse, IH. reflexivity.
Qed.

Lemma append_inv_head (a b c : string) : (a ++ b = a ++ c -> b = c)%string.
Proof.
  induction a as [|x a IH]; cbn; intros H; [exact H|].
  injection H as H. exact (IH H).
Qed.

Lemma append_empty_r (a : string) : (a ++ "" = a)%string.
Proof. induction a as [|x a IH]; cbn; [reflexivity|]. rewrite IH. reflexivity. Qed.

Lemma urlencode_injective (q1 q2 : list (string * string)) :
  Urllib.urlencode q1 = Urllib.urlencode q2 -> q1 = q2.
Proof.
  intros H. rewrite <- (parse_qsl_urlencode q1), <- (parse_qsl_urlencode q2), H.
  reflexivity.
Qed.

(** X21. For one path, different query parameters never give the same full
    path, hence never the same upstream URL: the text the cache key is
    computed from tells the queries of a path apart. *)
Theorem full_path_separates_queries (path : string)
    (q1 q2 : list (string * string)) :
  q1 <> q2 ->
  full_path path q1 <> full_path path q2 /\
  upstream_url_of path q1 <> upstream_url_of path q2.
Proof.
  intros Hne.
  assert (Hfp : full_path path q1 <> full_path path q2).
  { intros H. apply Hne. apply urlencode_injective. unfold full_path in H.
    destruct (Urllib.urlencode q1) as [|c1 u1] eqn:E1;
      destruct (Urllib.urlencode q2) as [|c2 u2] eqn:E2;
      cbn [PyStr.truthy] in H.
    - reflexivity.
    - exfalso. cbn in H. injection H as H.
      rewrite <- (append_empty_r path) in H at 1.
      apply append_inv_head in H. discriminate H.
    - exfalso. cbn in H. injection H as H.
      rewrite <- (append_empty_r path) in H at 2.
      apply append_inv_head in H. discriminate H.
    - cbn in H. injection H as H. apply append_inv_head in H.
      injection H as -> ->. reflexivity. }
  split; [exact Hfp|]. unfold upstream_url_of. intros H.
  apply append_inv_head in H. exact (Hfp H).
Qed.

Lemma full_path_separates_queries_witness :
  full_path "api.twelvedata.com/eod" [("symbol", "A&B")]
    <> full_path "api.twelvedata.com/eod" [("symbol", "A"); ("B", "")] /\
  upstream_url_of "api.twelvedata.com/eod" [("symbol", "A&B")]
    <> upstream_url_of "api.twelvedata.com/eod" [("symbol", "A"); ("B", "")].
Proof.
  apply (full_path_separates_queries "api.twelvedata.com/eod"
           [("symbol", "A&B")] [("symbol", "A"); ("B", "")]).
  discriminate.
Defined.

Lemma to_dict_distinct (seen : list string) (items : list (string * string)) :
  NoDup (map fst items) ->
  (forall k, In k seen -> ~ In k (map fst items)) ->
  Wsgi.to_dict seen items = items.
Proof.
  revert seen. induction items as [|[k v] items IH]; intros seen Hnd Hseen;
    [reflexivity|].
  cbn [Wsgi.to_dict]. inversion Hnd as [|k' l Hk Hnd']; subst.
  destruct (existsb (String.eqb k) seen) eqn:E.
  - exfalso. apply existsb_exists in E. destruct E as [x [Hx Hkx]].
    apply String.eqb_eq in Hkx. subst x. apply (Hseen k Hx). left. reflexivity.
  - f_equal. apply IH; [exact Hnd'|].
    intros x [<-|Hx] Hin; [exact (Hk Hin)|].
    apply (Hseen x Hx). right. exact Hin.
Qed.

(** X22. The query string the handler forwards decodes back to the
    parameters it was built from: split at [&] and [=] and unquoted, it gives
    the same names and values in the same order; and for parameters with
    distinct names, as a dict always has, the parsed dict is the one the
    handler started from. *)
Theorem forwarded_query_decodes_to_params
    (query_params : list (string * string)) :
  Wsgi.parse_qsl (Urllib.urlencode query_params) = query_params /\
  (NoDup (map fst query_params) ->
   Wsgi.request_args (Urllib.urlencode query_params) = query_params).
Proof.
  split; [apply parse_qsl_urlencode|]. intros Hnd.
  unfold Wsgi.request_args. rewrite parse_qsl_urlencode.
  apply to_dict_distinct; [exact Hnd|]. intros k [].
Qed.

Lemma forwarded_query_decodes_to_params_witness :
  Wsgi.request_args
    (Urllib.urlencode [("app_id", "a b&c"); ("base", "=USD")])
  = [("app_id", "a b&c"); ("base", "=USD")].
Proof.
  apply (forwarded_query_decodes_to_params
           [("app_id", "a b&c"); ("base", "=USD")]).
  repeat constructor; cbn; intuition discriminate.
Defined.
